(** * Verification of [src/inverse_projections/get_datasets.py]

    A shallow embedding of the dataset acquisition script of pointctl:
    - [Sha256]: [hashlib.sha256(...).hexdigest()] as used by [Dataset.check_hash];
    - [Lifecycle]: [Dataset.verify_downloaded], [download_file], [check_hash],
      [process] and the [__main__] loop, as a writer/state/exit monad over a
      file system, with the module-global loop variable [dataset] made explicit;
    - [Scaling]: sklearn's [MinMaxScaler.fit_transform] in binary64 arithmetic
      (Rocq's primitive floats) and the shared tail of the [process_*] routines;
    - [Banknote]: [process_banknote];
    - [Formats], [Table]: the form of a hex digest, and the [datasets] table of [__main__];
    - [RunTraces]: the processing calls of a run and the files a step leaves alone;
    - [Frames]: reading a column of a frame ([df[c]]);
    - [Pandas]: the pandas steps of the other [process_*] routines
      ([get_dummies], [drop], [df.columns = ...], the label tests), from the
      frame [pd.read_csv] returns. *)

From Stdlib Require Import ZArith List String Ascii Bool Lia Permutation Sorted.
From Stdlib Require Import Floats.
Import ListNotations.

(* ------------------------------------------------------------------------- *)
(** ** SHA-256 (FIPS 180-4) and [hexdigest] *)

Module Sha256.
Open Scope Z_scope.

Definition w32 (x : Z) : Z := Z.land x (Z.ones 32).
Definition add32 (x y : Z) : Z := w32 (x + y).
Definition rotr (x : Z) (n : Z) : Z :=
  w32 (Z.lor (Z.shiftr x n) (Z.shiftl x (32 - n))).

Definition ch (x y z : Z) : Z := Z.lxor (Z.land x y) (Z.land (Z.lxor x (Z.ones 32)) z).
Definition maj (x y z : Z) : Z := Z.lxor (Z.lxor (Z.land x y) (Z.land x z)) (Z.land y z).
Definition bsig0 (x : Z) : Z := Z.lxor (Z.lxor (rotr x 2) (rotr x 13)) (rotr x 22).
Definition bsig1 (x : Z) : Z := Z.lxor (Z.lxor (rotr x 6) (rotr x 11)) (rotr x 25).
Definition ssig0 (x : Z) : Z := Z.lxor (Z.lxor (rotr x 7) (rotr x 18)) (Z.shiftr x 3).
Definition ssig1 (x : Z) : Z := Z.lxor (Z.lxor (rotr x 17) (rotr x 19)) (Z.shiftr x 10).

(** The round constants and initial hash value are the first 32 bits of the
    fractional parts of the cube roots (resp. square roots) of the first 64
    (resp. 8) primes. *)
Definition is_prime (n : nat) : bool :=
  forallb (fun k => negb (Nat.eqb (n mod k) 0)) (seq 2 (n - 2)).

Definition first_primes : list Z :=
  map Z.of_nat (filter is_prime (seq 2 310)).

Fixpoint cbrt_search (fuel : nat) (lo hi n : Z) : Z :=
  match fuel with
  | O => lo
  | S f =>
      if hi - lo <=? 1 then lo
      else let mid := (lo + hi) / 2 in
           if mid * mid * mid <=? n then cbrt_search f mid hi n
           else cbrt_search f lo mid n
  end.

(** [floor (cbrt n)] for [n < 2 ^ 120]. *)
Definition Z_cbrt (n : Z) : Z := cbrt_search 64 0 (2 ^ 40) n.

Definition K : list Z :=
  Eval vm_compute in map (fun p => w32 (Z_cbrt (p * 2 ^ 96))) first_primes.

Definition H0 : list Z :=
  Eval vm_compute in map (fun p => w32 (Z.sqrt (p * 2 ^ 64))) (firstn 8 first_primes).

(** Message padding: [0x80], zeros, then the 64-bit big-endian bit length. *)
Definition be_bytes (n : nat) (x : Z) : list Z :=
  map (fun i => Z.land (Z.shiftr x (8 * Z.of_nat (n - 1 - i))) 255) (seq 0 n).

Definition pad (msg : list Z) : list Z :=
  let l := Z.of_nat (List.length msg) in
  let k := (55 - l) mod 64 in
  (msg ++ [128] ++ repeat 0 (Z.to_nat k) ++ be_bytes 8 (8 * l))%list.

Fixpoint words_of (bs : list Z) : list Z :=
  match bs with
  | a :: b :: c :: d :: rest =>
      (a * 16777216 + b * 65536 + c * 256 + d) :: words_of rest
  | _ => []
  end.

Fixpoint blocks_of (fuel : nat) (bs : list Z) : list (list Z) :=
  match fuel with
  | O => []
  | S f => match bs with
           | [] => []
           | _ => firstn 64 bs :: blocks_of f (skipn 64 bs)
           end
  end.

(** The message schedule W[0..63]. *)
Fixpoint extend (fuel : nat) (w : list Z) : list Z :=
  match fuel with
  | O => w
  | S f =>
      let t := List.length w in
      let wt := add32 (add32 (ssig1 (nth (t - 2) w 0)) (nth (t - 7) w 0))
                      (add32 (ssig0 (nth (t - 15) w 0)) (nth (t - 16) w 0)) in
      extend f (w ++ [wt])%list
  end.

Definition round (st : list Z) (kw : Z * Z) : list Z :=
  match st with
  | [a; b; c; d; e; f; g; h] =>
      let t1 := add32 (add32 (add32 h (bsig1 e)) (add32 (ch e f g) (fst kw))) (snd kw) in
      let t2 := add32 (bsig0 a) (maj a b c) in
      [add32 t1 t2; a; b; c; add32 d t1; e; f; g]
  | _ => st
  end.

Definition compress (hs : list Z) (block : list Z) : list Z :=
  let w := extend 48 (words_of block) in
  let st := fold_left round (combine K w) hs in
  map (fun p => add32 (fst p) (snd p)) (combine hs st).

Definition digest (msg : list Z) : list Z :=
  let p := pad msg in
  fold_left compress (blocks_of (List.length p) p) H0.

Definition hex_char (n : Z) : ascii :=
  if n <? 10 then ascii_of_nat (48 + Z.to_nat n) else ascii_of_nat (87 + Z.to_nat n).

Fixpoint hex_of_word_aux (n : nat) (x : Z) (acc : string) : string :=
  match n with
  | O => acc
  | S m => hex_of_word_aux m (Z.shiftr x 4) (String (hex_char (Z.land x 15)) acc)
  end.

Definition hex_of_word (x : Z) : string := hex_of_word_aux 8 x EmptyString.

Definition bytes_to_Z (bs : list Byte.byte) : list Z :=
  map (fun b => Z.of_N (Byte.to_N b)) bs.

(** [hashlib.sha256(data).hexdigest()]: 64 lowercase hexadecimal digits. *)
Definition sha256_hexdigest (data : list Byte.byte) : string :=
  fold_right append EmptyString (map hex_of_word (digest (bytes_to_Z data))).

End Sha256.

(* ------------------------------------------------------------------------- *)
(** ** The acquisition lifecycle: [Dataset] and its methods *)

Module Lifecycle.
Open Scope string_scope.

Definition path := string.
Definition bytes := list Byte.byte.

(** A file system: the content of each file present. *)
Definition fs_t := path -> option bytes.

Definition fs_update (s : fs_t) (p : path) (c : bytes) : fs_t :=
  fun q => if String.eqb q p then Some c else s q.

(** What [requests.get(url, stream=True)] answers: the [Content-Length]
    header (absent or present) and the body as delivered by [iter_content]. *)
Record Response := mkResponse {
  content_length : option string;
  body_chunks : list bytes
}.

(** The [Dataset] dataclass. [processing_function] is the routine's effect on
    the clean file: the output written for a raw content, [None] when the
    routine raises. *)
Record Dataset := mkDataset {
  name : string;
  url : string;
  hash : string;
  raw_file_path : path;
  clean_file_path : path;
  processing_function : bytes -> option bytes
}.

(** Observable actions, in the order they happen. *)
Inductive event :=
| Print (msg : string)
| MkdirParents (p : path)        (* [p.parent.mkdir(exist_ok=True, parents=True)] *)
| HttpGet (u : string)           (* [requests.get(u, stream=True)] *)
| StreamTo (p : path)            (* [open(p, "wb")] and the chunk writes *)
| HashCompared (p : path) (matched : bool)  (* [file_hash != self.hash] *)
| ProcessingCall (src dst : path)          (* [self.processing_function(src, dst)] *)
| WriteFile (p : path).          (* the routine's [to_csv(p, ...)] *)

(** How a computation ends: normally, by [exit(code)], or by an exception. *)
Inductive outcome (A : Type) :=
| Ok (a : A)
| Exit (code : Z)
| Raise (exn : string).
Arguments Ok {A} a.
Arguments Exit {A} code.
Arguments Raise {A} exn.

(** A state monad over the file system that also records the events. *)
Definition M (A : Type) := fs_t -> outcome A * fs_t * list event.

Definition ret {A} (a : A) : M A := fun s => (Ok a, s, []).

Definition bind {A B} (m : M A) (k : A -> M B) : M B :=
  fun s =>
    match m s with
    | (Ok a, s1, l1) => let '(o, s2, l2) := k a s1 in (o, s2, (l1 ++ l2)%list)
    | (Exit c, s1, l1) => (Exit c, s1, l1)
    | (Raise e, s1, l1) => (Raise e, s1, l1)
    end.

Notation "'let!' x ':=' m 'in' k" := (bind m (fun x => k))
  (at level 200, x name, m at level 100, k at level 200).
Notation "m ;; k" := (bind m (fun _ => k)) (at level 100, right associativity).

Definition emit (e : event) : M unit := fun s => (Ok tt, s, [e]).
Definition print (msg : string) : M unit := emit (Print msg).
Definition raise {A} (exn : string) : M A := fun s => (Raise exn, s, []).
Definition sys_exit {A} (code : Z) : M A := fun s => (Exit code, s, []).

(** [Path.exists()] *)
Definition path_exists (p : path) : M bool :=
  fun s => (Ok (match s p with Some _ => true | None => false end), s, []).

(** [open(p, "rb").read()]: [FileNotFoundError] when absent. *)
Definition read_file (p : path) : M bytes :=
  fun s => match s p with
           | Some c => (Ok c, s, [])
           | None => (Raise "FileNotFoundError", s, [])
           end.

Definition store (p : path) (c : bytes) : M unit :=
  fun s => (Ok tt, fs_update s p c, []).

(** The module-global loop variable [dataset] of the [__main__] block:
    [None] when unbound (reading it raises [NameError]). *)
Definition global_dataset (g : option Dataset) : M Dataset :=
  match g with
  | Some d => ret d
  | None => raise "NameError"
  end.

(** [int(x)] on the header value: [int(None)] raises [TypeError]; a string
    is read as a decimal numeral ([ValueError] otherwise). Python also
    accepts a sign, surrounding blanks and underscores, not modelled here. *)
Fixpoint digits_value (l : list ascii) (acc : Z) : option Z :=
  match l with
  | [] => Some acc
  | c :: r =>
      let n := Z.of_nat (nat_of_ascii c) in
      if andb (48 <=? n)%Z (n <=? 57)%Z then digits_value r (acc * 10 + (n - 48))%Z
      else None
  end.

Definition int_of_header (x : option string) : outcome Z :=
  match x with
  | None => Raise "TypeError"
  | Some str =>
      match list_ascii_of_string str with
      | [] => Raise "ValueError"
      | l => match digits_value l 0%Z with
             | Some n => Ok n
             | None => Raise "ValueError"
             end
      end
  end.

Definition py_int (x : option string) : M Z := fun s => (int_of_header x, s, []).

(** The bytes written by the [for chunk in r.iter_content(...)] loop. *)
Definition downloaded_content (r : Response) : bytes :=
  List.concat (filter (fun ch => match ch with [] => false | _ => true end)
                      (body_chunks r)).

Definition nl : string := String (ascii_of_nat 10) EmptyString.
Definition esc : string := String (ascii_of_nat 27) EmptyString.

Definition missing_msg (n : string) : string :=
  "Source file for " ++ n ++ " is missing, downloading it".

Definition mismatch_msg (u : string) : string :=
  "The file hosted as " ++ u ++ " has an unexpected hash." ++ nl ++
  "Please manually check if the processing is still correct".

Definition gathering_msg (n : string) : string :=
  nl ++ esc ++ "[1;36mGathering " ++ n ++ esc ++ "[0m".

Section Methods.
(** The network: what a GET on each URL answers. *)
Variable net : string -> Response.

(** [Dataset.check_hash]; [g] is the global [dataset]. *)
Definition check_hash (g : option Dataset) (self : Dataset) : M unit :=
  let! content := read_file (raw_file_path self) in
  let file_hash := Sha256.sha256_hexdigest content in
  if negb (String.eqb file_hash (hash self)) then
    emit (HashCompared (raw_file_path self) false) ;;
    let! gd := global_dataset g in
    print (mismatch_msg (url gd)) ;;
    sys_exit 1%Z
  else emit (HashCompared (raw_file_path self) true).

(** [Dataset.download_file]. The progress bar is not modelled; empty chunks
    are skipped as [if chunk:] does. *)
Definition download_file (g : option Dataset) (self : Dataset) : M unit :=
  emit (MkdirParents (raw_file_path self)) ;;
  emit (HttpGet (url self)) ;;
  let r := net (url self) in
  let! file_size := py_int (content_length r) in
  emit (StreamTo (raw_file_path self)) ;;
  store (raw_file_path self) (downloaded_content r) ;;
  check_hash g self.

(** [Dataset.verify_downloaded]: note it tests the global [dataset]. *)
Definition verify_downloaded (g : option Dataset) (self : Dataset) : M unit :=
  let! gd := global_dataset g in
  let! present := path_exists (raw_file_path gd) in
  if negb present then
    let! gd' := global_dataset g in
    print (missing_msg (name gd')) ;;
    download_file g self
  else ret tt.

(** [self.processing_function(self.raw_file_path, self.clean_file_path)]:
    the routine reads the raw file and writes the clean one. *)
Definition run_processing (self : Dataset) : M unit :=
  emit (ProcessingCall (raw_file_path self) (clean_file_path self)) ;;
  let! content := read_file (raw_file_path self) in
  match processing_function self content with
  | None => raise "TransformationError"
  | Some out => emit (WriteFile (clean_file_path self)) ;; store (clean_file_path self) out
  end.

(** [Dataset.process] *)
Definition process (g : option Dataset) (self : Dataset) : M unit :=
  verify_downloaded g self ;;
  run_processing self.

(** The [for dataset in datasets:] loop of [__main__]: it binds the global
    [dataset] to each record before calling its [process]. *)
Fixpoint main_loop (datasets : list Dataset) : M unit :=
  match datasets with
  | [] => ret tt
  | d :: rest =>
      print (gathering_msg (name d)) ;;
      process (Some d) d ;;
      main_loop rest
  end.

End Methods.

Definition outcome_of {A} (r : outcome A * fs_t * list event) : outcome A :=
  fst (fst r).
Definition fs_of {A} (r : outcome A * fs_t * list event) : fs_t := snd (fst r).
Definition events_of {A} (r : outcome A * fs_t * list event) : list event := snd r.

End Lifecycle.

(** Trace predicates used to state the lifecycle properties. *)
Module Traces.
Import Lifecycle.

Definition is_get (e : event) : bool :=
  match e with HttpGet _ => true | _ => false end.

Definition is_hash_check (e : event) : bool :=
  match e with HashCompared _ _ => true | _ => false end.

(** Did the run issue a network request? *)
Definition downloads (tr : list event) : bool := existsb is_get tr.

(** Did the run compare a digest at all? *)
Definition hash_checked (tr : list event) : bool := existsb is_hash_check tr.

Definition present (s : fs_t) (p : path) : bool :=
  match s p with Some _ => true | None => false end.

(** Every write of [clean_file_path d] comes after a successful digest
    comparison for [raw_file_path d]. *)
Fixpoint confirmed_before_clean_write (d : Dataset) (seen : bool) (tr : list event) : bool :=
  match tr with
  | [] => true
  | HashCompared p true :: r =>
      confirmed_before_clean_write d (seen || String.eqb p (raw_file_path d)) r
  | WriteFile p :: r =>
      if andb (String.eqb p (clean_file_path d)) (negb seen) then false
      else confirmed_before_clean_write d seen r
  | _ :: r => confirmed_before_clean_write d seen r
  end.

Definition clean_write_confirmed (d : Dataset) (tr : list event) : bool :=
  confirmed_before_clean_write d false tr.

End Traces.

(* ------------------------------------------------------------------------- *)
(** ** [MinMaxScaler] and the shared tail of the [process_*] routines *)

Module Scaling.
Open Scope float_scope.

(** [np.finfo(np.float64).eps] *)
Definition eps : float := 0x1p-52.

(** [np.nanmin] / [np.nanmax] over one column: NaN entries are ignored; an
    all-NaN column gives NaN. *)
Definition nan_extremum (better : float -> float -> bool) (col : list float) : float :=
  match fold_left (fun acc x =>
                     if PrimFloat.is_nan x then acc
                     else match acc with
                          | None => Some x
                          | Some m => Some (if better x m then x else m)
                          end) col None with
  | Some m => m
  | None => nan
  end.

Definition nanmin (col : list float) : float := nan_extremum (fun x m => x <? m) col.
Definition nanmax (col : list float) : float := nan_extremum (fun x m => m <? x) col.

(** [_handle_zeros_in_scale]: a range below [10 * eps] is replaced by 1. *)
Definition handle_zeros_in_scale (r : float) : float :=
  if r <? 10 * eps then 1 else r.

(** [partial_fit] with [feature_range=(0, 1)]: [scale_] and [min_] of a column. *)
Definition fit_column (col : list float) : float * float :=
  let data_min := nanmin col in
  let data_max := nanmax col in
  let data_range := data_max - data_min in
  let scale := (1 - 0) / handle_zeros_in_scale data_range in
  (scale, 0 - data_min * scale).

Definition column (X : list (list float)) (j : nat) : list float :=
  map (fun row => nth j row nan) X.

Definition width (X : list (list float)) : nat :=
  match X with [] => 0%nat | row :: _ => List.length row end.

Definition fit_params (X : list (list float)) : list (float * float) :=
  map (fun j => fit_column (column X j)) (seq 0 (width X)).

(** [transform]: [X *= scale_; X += min_]. *)
Definition transform_row (ps : list (float * float)) (row : list float) : list float :=
  map (fun '(p, x) => x * fst p + snd p) (combine ps row).

(** [check_array] as called by [MinMaxScaler.fit]: at least one sample and
    one feature, NaN allowed, infinities rejected. *)
Definition valid_input (X : list (list float)) : bool :=
  negb (Nat.eqb (List.length X) 0) && negb (Nat.eqb (width X) 0) &&
  forallb (forallb (fun x => negb (PrimFloat.is_infinity x))) X.

(** [MinMaxScaler().fit_transform(X)]; [None] when it raises. *)
Definition fit_transform (X : list (list float)) : option (list (list float)) :=
  if valid_input X then Some (map (transform_row (fit_params X)) X) else None.

(** A data frame: column labels and rows. *)
Record frame := mkFrame {
  columns : list String.string;
  data : list (list float)
}.

(** [pd.DataFrame(data=X, columns=column_names)] *)
Definition dataframe (X : list (list float)) (names : list String.string) : option frame :=
  if forallb (fun row => Nat.eqb (List.length row) (List.length names)) X
  then Some (mkFrame names X) else None.

Fixpoint replace_at (n : nat) (v : float) (row : list float) : list float :=
  match n, row with
  | O, _ :: r => v :: r
  | S m, x :: r => x :: replace_at m v r
  | _, [] => []
  end.

Fixpoint index_of (c : String.string) (cs : list String.string) : option nat :=
  match cs with
  | [] => None
  | c' :: r => if String.eqb c c' then Some O
               else option_map S (index_of c r)
  end.

(** [df[c] = values]: an existing column is overwritten in place, a new one
    is appended last; a length mismatch raises. This follows pandas on a frame
    with rows and distinct labels; pandas reindexes a frame with no rows to the
    length of [values] and writes every column of a repeated label, where this
    version reports a mismatch and writes the first such column. *)
Definition setitem (f : frame) (c : String.string) (values : list float) : option frame :=
  if negb (Nat.eqb (List.length values) (List.length (data f))) then None
  else match index_of c (columns f) with
       | Some i => Some (mkFrame (columns f)
                           (map (fun '(row, v) => replace_at i v row) (combine (data f) values)))
       | None => Some (mkFrame (columns f ++ [c])%list
                           (map (fun '(row, v) => row ++ [v])%list (combine (data f) values)))
       end.

(** The lines every routine ends with:
    [scaler = MinMaxScaler(); X = scaler.fit_transform(X);
     X = pd.DataFrame(data=X, columns=column_names); X["y"] = y]. *)
Definition scale_and_label (column_names : list String.string) (X : list (list float))
    (y : list float) : option frame :=
  match fit_transform X with
  | None => None
  | Some Xs =>
      match dataframe Xs column_names with
      | None => None
      | Some f => setitem f "y"%string y
      end
  end.

End Scaling.

(* ------------------------------------------------------------------------- *)
(** ** [process_banknote] *)

Module Banknote.
Import Scaling.
Open Scope float_scope.

(** A raw CSV file, each line given by its parsed numeric fields. *)
Definition csv := list (list float).

Definition pad_row (w : nat) (row : list float) : list float :=
  (row ++ repeat nan (w - List.length row))%list.

(** [pd.read_csv(input_file, index_col=None)]: blank lines are skipped, the
    first line is taken as the header; a record longer than the header
    raises, a shorter one is padded with NaN. Returns the header width and
    the records. *)
Definition read_csv (lines : csv) : option (nat * list (list float)) :=
  match filter (fun l => negb (Nat.eqb (List.length l) 0)) lines with
  | [] => None
  | header :: records =>
      let w := List.length header in
      if forallb (fun r => Nat.leb (List.length r) w) records
      then Some (w, map (pad_row w) records) else None
  end.

Definition feature_names : list String.string :=
  ["variance"; "skewness"; "curtosis"; "entropy"]%string.

(** [np.array(df["class"] == 1).astype("uint8")] *)
Definition label_of (row : list float) : float :=
  if nth 4 row nan =? 1 then 1 else 0.

(** [process_banknote]: the frame written by [X.to_csv(output_file, sep=";")],
    [None] when a step raises. [df.columns = [...]] raises unless there are
    exactly five columns; [pd.get_dummies] leaves the numeric columns as
    they are. *)
Definition process_banknote (lines : csv) : option frame :=
  match read_csv lines with
  | None => None
  | Some (w, df) =>
      if negb (Nat.eqb w 5) then None
      else
        let y := map label_of df in
        let X := map (firstn 4) df in
        scale_and_label feature_names X y
  end.

End Banknote.

(* ------------------------------------------------------------------------- *)
(** ** Hex digests *)

Module Formats.
Definition is_lower_hex (c : ascii) : bool :=
  let n := nat_of_ascii c in
  (Nat.leb 48 n && Nat.leb n 57) || (Nat.leb 97 n && Nat.leb n 102).

Fixpoint all_lower_hex (s : string) : bool :=
  match s with
  | EmptyString => true
  | String c r => is_lower_hex c && all_lower_hex r
  end.

Definition hexdigest_form (s : string) : bool :=
  Nat.eqb (String.length s) 64 && all_lower_hex s.
End Formats.

(* ------------------------------------------------------------------------- *)
(** ** The [datasets] table of [__main__] *)

Module Table.
Import Lifecycle.
Open Scope string_scope.

(** [Path.__truediv__]: [p / q]. *)
Definition slash (p : path) (q : string) : path := p ++ "/" ++ q.

Definition base_dir : path := "../data".

Section Table.
(** [Path.resolve()], and the routines the records name. *)
Variable resolve : path -> path.
Variables process_abalone process_absenteeism process_bank process_banknote
  process_diabetes process_epileptic process_happiness process_seismic : bytes -> option bytes.

(** The [datasets] list of [__main__] (the commented-out records left out). *)
Definition datasets : list Dataset := [
  mkDataset "abalone"
    "https://archive.ics.uci.edu/ml/machine-learning-databases/abalone/abalone.data"
    "de37cdcdcaaa50c309d514f248f7c2302a5f1f88c168905eba23fe2fbc78449f"
    (resolve (slash (slash (slash base_dir "abalone") "raw") "abalone.data"))
    (resolve (slash (slash base_dir "abalone") "abalone.csv"))
    process_abalone;
  mkDataset "absenteeism"
    "https://archive.ics.uci.edu/ml/machine-learning-databases/00445/Absenteeism_at_work_AAA.zip"
    "89ecdfed5f107bb97015c335b1d812d7ecbe86e601a23b56516967d8657e53c4"
    (resolve (slash (slash (slash base_dir "absenteeism") "raw") "Absenteeism_at_work_AAA.zip"))
    (resolve (slash (slash base_dir "absenteeism") "absenteeism.csv"))
    process_absenteeism;
  mkDataset "bank"
    "http://archive.ics.uci.edu/ml/machine-learning-databases/00222/bank-additional.zip"
    "a607b5edab6c6c75ce09c39142a77702c38123bd5aa7ae89a63503bbe17d65cd"
    (resolve (slash (slash (slash base_dir "bank") "raw") "bank-additional.zip"))
    (resolve (slash (slash base_dir "bank") "bank.csv"))
    process_bank;
  mkDataset "banknote"
    "https://archive.ics.uci.edu/ml/machine-learning-databases/00267/data_banknote_authentication.txt"
    "d0539aaed2139ba7a587b3e34fb345ce503ff7d5d33dbf9912d8e195ce425cb9"
    (resolve (slash (slash (slash base_dir "banknote") "raw") "data_banknote_authentication.txt"))
    (resolve (slash (slash base_dir "banknote") "banknote.csv"))
    process_banknote;
  mkDataset "diabetes"
    "https://archive.ics.uci.edu/ml/machine-learning-databases/00529/diabetes_data_upload.csv"
    "7889d9d0beb7dd1ccc58da99f72763f16afb259b5dbbaa086f8195366ff66137"
    (resolve (slash (slash (slash base_dir "diabetes") "raw") "diabetes_data_upload.csv"))
    (resolve (slash (slash base_dir "diabetes") "diabetes.csv"))
    process_diabetes;
  mkDataset "epileptic"
    "http://archive.ics.uci.edu/ml/machine-learning-databases/00388/data.csv"
    "4b3f6024ea24a864c0de51b2ba477bf8b9e4974e8cc01a00dcf45bfc59d48deb"
    (resolve (slash (slash (slash base_dir "epileptic") "raw") "data-epileptic.csv"))
    (resolve (slash (slash base_dir "epileptic") "epileptic.csv"))
    process_epileptic;
  mkDataset "happiness"
    "https://archive.ics.uci.edu/ml/machine-learning-databases/00479/SomervilleHappinessSurvey2015.csv"
    "1feffca7dd0b9455b4bb16a72c3c5b33ddd78d8a13ea2c7578894481acb5c538"
    (resolve (slash (slash (slash base_dir "happiness") "raw") "SomervilleHappinessSurvey2015.csv"))
    (resolve (slash (slash base_dir "happiness") "happiness.csv"))
    process_happiness;
  mkDataset "seismic"
    "http://archive.ics.uci.edu/ml/machine-learning-databases/00266/seismic-bumps.arff"
    "aabe512fab65b36d1dfb462650b75cfd8d99d8cc2723e8ecb4e6f5e1caccd5a7"
    (resolve (slash (slash (slash base_dir "seismic") "raw") "seismic-bumps.arff"))
    (resolve (slash (slash base_dir "seismic") "seismic.csv"))
    process_seismic
].
End Table.

(** All the paths of a list of records, raw then clean for each. *)
Definition all_paths (ds : list Dataset) : list path :=
  flat_map (fun d => [raw_file_path d; clean_file_path d]) ds.

Fixpoint nodupb (l : list string) : bool :=
  match l with
  | [] => true
  | x :: r => negb (existsb (String.eqb x) r) && nodupb r
  end.

End Table.

(* ------------------------------------------------------------------------- *)
(** ** Runs of the [__main__] loop *)

Module RunTraces.
Import Lifecycle.

(** The [self.processing_function(src, dst)] calls of a run, in order. *)
Definition calls (tr : list event) : list (path * path) :=
  flat_map (fun e => match e with ProcessingCall a b => [(a, b)] | _ => [] end) tr.

(** [m] leaves the content of [p] as it found it, however it ends. *)
Definition keeps {A} (p : path) (m : M A) : Prop :=
  forall s, fs_of (m s) p = s p.
End RunTraces.

(* ------------------------------------------------------------------------- *)
(** ** Frames *)

Module Frames.
Import Scaling.
Open Scope float_scope.

(** [df[c]]: the column labelled [c], [None] ([KeyError]) when there is none. *)
Definition getitem (f : frame) (c : String.string) : option (list float) :=
  match index_of c (columns f) with
  | Some i => Some (map (fun row => nth i row nan) (data f))
  | None => None
  end.

(** The frame is rectangular: each row has one value per column label. *)
Definition rectangular (f : frame) : Prop :=
  forall row, In row (data f) -> List.length row = List.length (columns f).
End Frames.

(* ------------------------------------------------------------------------- *)
(** ** The pandas routines *)

Module Pandas.
Import Scaling.
Open Scope float_scope.

(** A column as pandas holds it: numeric ([int64], [float64], [bool]) as
    floats with NaN for a missing entry, or text ([object]: strings that are
    not numerals) with [None] for a missing entry. Text is its UTF-8 bytes. *)
Inductive series :=
| Num (v : list float)
| Obj (v : list (option String.string)).

Definition series_length (s : series) : nat :=
  match s with Num v => List.length v | Obj v => List.length v end.

(** A data frame: labelled columns, in order. *)
Definition table := list (String.string * series).

(** Every column has [n] entries, as in any frame pandas builds. *)
Definition table_rows (df : table) (n : nat) : Prop :=
  Forall (fun cs => series_length (snd cs) = n) df.

Definition obind {A B} (o : option A) (k : A -> option B) : option B :=
  match o with Some a => k a | None => None end.
Notation "'let?' x ':=' o 'in' k" := (obind o (fun x => k))
  (at level 200, x name, o at level 100, k at level 200).

(** [df[c]]: [KeyError] when no column is labelled [c]. *)
Fixpoint lookup (c : String.string) (df : table) : option series :=
  match df with
  | [] => None
  | (c', s) :: r => if String.eqb c c' then Some s else lookup c r
  end.

Definition has_label (df : table) (c : String.string) : bool :=
  existsb (fun cs => String.eqb c (fst cs)) df.

(** [df.drop(labels, axis=1)]: [KeyError] unless every label is present. *)
Definition drop (labels : list String.string) (df : table) : option table :=
  if forallb (has_label df) labels
  then Some (filter (fun cs => negb (existsb (String.eqb (fst cs)) labels)) df)
  else None.

(** [df.columns = names]: relabels positionally; [ValueError] on a length mismatch. *)
Definition set_columns (df : table) (names : list String.string) : option table :=
  if Nat.eqb (List.length names) (List.length df)
  then Some (combine names (map snd df)) else None.

(** The categories of a text column, as [pd.factorize(..., sort=True)] finds
    them: the distinct present values in order of appearance, then sorted in
    Python's string order (on UTF-8 bytes this is code point order). *)
Fixpoint insert_sorted (x : String.string) (l : list String.string) : list String.string :=
  match l with
  | [] => [x]
  | y :: r => if String.leb x y then x :: l else y :: insert_sorted x r
  end.

Definition sort_strings (l : list String.string) : list String.string :=
  fold_right insert_sorted [] l.

Definition uniq_step (acc : list String.string) (x : String.string) : list String.string :=
  if existsb (String.eqb x) acc then acc else (acc ++ [x])%list.

Definition uniques (l : list String.string) : list String.string :=
  fold_left uniq_step l [].

Definition present_values (v : list (option String.string)) : list String.string :=
  flat_map (fun o => match o with Some x => [x] | None => [] end) v.

Definition categories (v : list (option String.string)) : list String.string :=
  sort_strings (uniques (present_values v)).

(** The dummy column of category [k]: 1 where the entry is [k], else 0
    (a missing entry gives 0, [dummy_na=False]). *)
Definition indicator (v : list (option String.string)) (k : String.string) : list float :=
  map (fun o => match o with Some x => if String.eqb x k then 1 else 0 | None => 0 end) v.

(** [_get_dummies_1d] with the default prefix [c] and separator ["_"]. *)
Definition dummies_of (c : String.string) (v : list (option String.string)) : table :=
  map (fun k => ((c ++ "_" ++ k)%string, Num (indicator v k))) (categories v).

(** [pd.get_dummies(df)]: the numeric columns first, unchanged and in order,
    then the dummy columns of each text column, in column order. *)
Definition get_dummies (df : table) : table :=
  (filter (fun cs => match snd cs with Num _ => true | Obj _ => false end) df ++
   flat_map (fun cs => match snd cs with Obj v => dummies_of (fst cs) v | Num _ => [] end) df)%list.

(** [np.asarray(X, dtype=float64)] inside [check_array]: the rows of the
    frame; a text column holding a string raises ([ValueError]), an all
    missing one reads as NaN. A frame with no columns gives no rows here,
    where numpy gives [n] empty rows (shape [(n, 0)]); [MinMaxScaler]
    rejects both. *)
Definition column_values (s : series) : option (list float) :=
  match s with
  | Num v => Some v
  | Obj v => if forallb (fun o => match o with None => true | Some _ => false end) v
             then Some (map (fun _ => nan) v) else None
  end.

Fixpoint numeric_columns (df : table) : option (list (list float)) :=
  match df with
  | [] => Some []
  | (_, s) :: r =>
      let? v := column_values s in
      let? cols := numeric_columns r in
      Some (v :: cols)
  end.

Definition to_rows (df : table) : option (list (list float)) :=
  let? cols := numeric_columns df in
  let n := match cols with [] => 0%nat | col :: _ => List.length col end in
  Some (map (fun i => map (fun col => nth i col nan) cols) (seq 0 n)).

(** [np.array(s == k).astype("uint8")] for a number [k] (text never equals it). *)
Definition eq_number (s : series) (k : float) : list float :=
  match s with
  | Num v => map (fun x => if x =? k then 1 else 0) v
  | Obj v => map (fun _ => 0) v
  end.

(** [np.array(s == k).astype("uint8")] for a string [k] (a number never equals it). *)
Definition eq_text (s : series) (k : String.string) : list float :=
  match s with
  | Obj v => indicator v k
  | Num v => map (fun _ => 0) v
  end.

(** [np.array(s > 0).astype("uint8")]: NaN and missing give 0; a string
    raises [TypeError]. *)
Definition gt_zero (s : series) : option (list float) :=
  match s with
  | Num v => Some (map (fun x => if 0 <? x then 1 else 0) v)
  | Obj v => if forallb (fun o => match o with None => true | Some _ => false end) v
             then Some (map (fun _ => 0) v) else None
  end.

(** The frames below are the ones [pd.read_csv] / [pd.read_excel] return;
    the routines go from there. [process_abalone] and [process_epileptic]
    copy the raw column [y] with [X["y"] = df["y"]]; the float frame of
    [Scaling] holds numbers only, so these two are modelled for a numeric
    [y] and give [None] on a text one, where pandas would copy the strings. *)

(** [process_abalone], from the header-less frame [pd.read_csv] returns. *)
Definition abalone_names : list String.string :=
  ["sex"; "length"; "diameter"; "height"; "whole_weight"; "shucked_weigth";
   "viscera_weight"; "shell_weight"; "y"]%string.

Definition process_abalone (df0 : table) : option frame :=
  let? df := set_columns df0 abalone_names in
  let? X0 := drop ["y"%string] df in
  let X := get_dummies X0 in
  let column_names := map fst X in
  let? rows := to_rows X in
  let? ys := lookup "y" df in
  match ys with
  | Num yv => scale_and_label column_names rows yv
  | Obj _ => None
  end.

(** [process_absenteeism], from the frame read out of the archive. *)
Definition replace_char (a b : ascii) (s : String.string) : String.string :=
  string_of_list_ascii (map (fun c => if Ascii.eqb c a then b else c) (list_ascii_of_string s)).

Definition is_upper (c : ascii) : bool :=
  let n := nat_of_ascii c in Nat.leb 65 n && Nat.leb n 90.

(** [str.lower], exact on ASCII text: Python also lowers non-ASCII letters
    (["Ä"] to ["ä"]), which this byte-level version leaves as they are. *)
Definition lower_char (c : ascii) : ascii :=
  if is_upper c then ascii_of_nat (nat_of_ascii c + 32) else c.

Definition lower (s : String.string) : String.string :=
  string_of_list_ascii (map lower_char (list_ascii_of_string s)).

(** [c.replace(" ", "_").replace("/", "_").lower()] *)
Definition clean_name (c : String.string) : String.string :=
  lower (replace_char "/" "_" (replace_char " " "_" c)).

(** A label with no space, no [/] and no upper-case ASCII letter. *)
Definition clean_label (c : String.string) : bool :=
  forallb (fun a => negb (Ascii.eqb a " ") && negb (Ascii.eqb a "/") && negb (is_upper a))
    (list_ascii_of_string c).

(** Text that is all ASCII, where [lower] is Python's [str.lower]. *)
Definition is_ascii (s : String.string) : bool :=
  forallb (fun a => Nat.ltb (nat_of_ascii a) 128) (list_ascii_of_string s).

(** A frame whose labels and text values are all ASCII. *)
Definition ascii_table (df : table) : bool :=
  forallb (fun cs => is_ascii (fst cs) &&
             match snd cs with
             | Num _ => true
             | Obj v => forallb (fun o => match o with Some x => is_ascii x | None => true end) v
             end) df.

Definition process_absenteeism (df : table) : option frame :=
  let? hours := lookup "Absenteeism time in hours" df in
  let? y := gt_zero hours in
  let? X0 := drop ["ID"; "Absenteeism time in hours"]%string df in
  let X := get_dummies X0 in
  let column_names := map clean_name (map fst X) in
  let? rows := to_rows X in
  scale_and_label column_names rows y.

(** [process_bank], from the frame read out of the archive. *)
Definition process_bank (df : table) : option frame :=
  let? ycol := lookup "y" df in
  let y := eq_text ycol "yes" in
  let? X0 := drop ["y"%string] df in
  let X := get_dummies X0 in
  let column_names := map fst X in
  let? rows := to_rows X in
  scale_and_label column_names rows y.

(** [process_defaultcc], from the frame [pd.read_excel(..., header=1)] returns. *)
Definition process_defaultcc (df : table) : option frame :=
  let? dcol := lookup "default payment next month" df in
  let y := eq_number dcol 1 in
  let? X0 := drop ["ID"; "default payment next month"]%string df in
  let X := get_dummies X0 in
  let column_names := map fst X in
  let? rows := to_rows X in
  scale_and_label column_names rows y.

(** [process_diabetes], from the frame [pd.read_csv] returns. *)
Definition process_diabetes (df : table) : option frame :=
  let? cls := lookup "class" df in
  let y := eq_text cls "Positive" in
  let? X0 := drop ["class"%string] df in
  let X := get_dummies X0 in
  let column_names := map fst X in
  let? rows := to_rows X in
  scale_and_label column_names rows y.

(** [process_epileptic], from the frame [pd.read_csv] returns. *)
Definition process_epileptic (df : table) : option frame :=
  let? X1 := drop ["Unnamed: 0"%string] df in
  let? X := drop ["y"%string] X1 in
  let column_names := map fst X in
  let? rows := to_rows X in
  let? ys := lookup "y" df in
  match ys with
  | Num yv => scale_and_label column_names rows yv
  | Obj _ => None
  end.

(** [process_happiness], from the frame [pd.read_csv] returns. *)
Definition happiness_names : list String.string :=
  ["city_services"; "housing_cost"; "school_quality"; "police_trust";
   "street_maint"; "community_events"]%string.

Definition process_happiness (df : table) : option frame :=
  let? dcol := lookup "D" df in
  let y := eq_number dcol 1 in
  let? X0 := drop ["D"%string] df in
  let X := get_dummies X0 in
  let column_names := happiness_names in
  let? rows := to_rows X in
  scale_and_label column_names rows y.

(** One step of the [np.nanmin] / [np.nanmax] scan of [Scaling.nan_extremum]. *)
Definition ext_step (better : float -> float -> bool) (acc : option float) (x : float) : option float :=
  if PrimFloat.is_nan x then acc
  else match acc with
       | None => Some x
       | Some m => Some (if better x m then x else m)
       end.

Definition has_value (k : float) (col : list float) : bool := existsb (fun z => z =? k) col.

(** The per-character map of [clean_name]. *)
Definition clean_char (a : ascii) : ascii :=
  lower_char ((fun b => if Ascii.eqb b "/" then "_"%char else b)
                ((fun b => if Ascii.eqb b " " then "_"%char else b) a)).

(** A running [np.nanmin] / [np.nanmax] on a 0/1 column. *)
Definition acc01 (acc : option float) : Prop := acc = None \/ acc = Some 0 \/ acc = Some 1.

End Pandas.

(* ------------------------------------------------------------------------- *)
(** ** Properties of the acquisition lifecycle *)

Module LifecycleFacts.
Import Lifecycle Traces.
Open Scope string_scope.

Ltac unfold_lc :=
  unfold process, verify_downloaded, download_file, check_hash, run_processing,
    global_dataset, path_exists, read_file, store, emit, print, raise, sys_exit,
    py_int, bind, ret, outcome_of, events_of, fs_of, fs_update in *;
  cbn -[Sha256.sha256_hexdigest String.eqb String.append] in *.

Ltac split_all :=
  repeat (rewrite ?String.eqb_refl in *;
          cbn -[Sha256.sha256_hexdigest String.eqb String.append] in *;
          match goal with
          | |- context [match ?s ?p with _ => _ end] => is_var s; destruct (s p) eqn:?
          | |- context [match int_of_header ?x with _ => _ end] => destruct (int_of_header x) eqn:?
          | |- context [match processing_function ?d ?c with _ => _ end] =>
              destruct (processing_function d c) eqn:?
          | |- context [match ?g with Some _ => _ | None => _ end] => is_var g; destruct g
          | |- context [if ?x then _ else _] =>
              lazymatch type of x with bool => destruct x eqn:? end
          end);
  rewrite ?String.eqb_refl in *;
  cbn -[Sha256.sha256_hexdigest String.eqb String.append] in *.

Ltac finish := solve [reflexivity | congruence | intros; congruence].

(** A record whose global [dataset] names a present raw file skips acquisition. *)
Lemma verify_downloaded_present net g d s :
  present s (raw_file_path g) = true ->
  verify_downloaded net (Some g) d s = (Ok tt, s, []).
Proof.
  unfold present; intro H. unfold_lc.
  destruct (s (raw_file_path g)); [reflexivity | discriminate].
Qed.

Lemma process_present net d s :
  present s (raw_file_path d) = true ->
  process net (Some d) d s = run_processing d s.
Proof.
  intro H. unfold process at 1. unfold bind at 1.
  rewrite (verify_downloaded_present net d d s H).
  destruct (run_processing d s) as [[o s'] l]; reflexivity.
Qed.

Lemma run_processing_no_get d s :
  downloads (events_of (run_processing d s)) = false.
Proof. unfold downloads. unfold_lc. split_all; finish. Qed.

Lemma run_processing_no_hash_check d s :
  hash_checked (events_of (run_processing d s)) = false.
Proof. unfold hash_checked. unfold_lc. split_all; finish. Qed.

Lemma run_processing_first_event d s :
  hd_error (events_of (run_processing d s)) =
  Some (ProcessingCall (raw_file_path d) (clean_file_path d)).
Proof. unfold_lc. split_all; finish. Qed.

(** After a run that ends normally, the raw file is present. *)
Lemma process_ok_raw_present net d s :
  outcome_of (process net (Some d) d s) = Ok tt ->
  present (fs_of (process net (Some d) d s)) (raw_file_path d) = true.
Proof.
  unfold present. unfold_lc. split_all; finish.
Qed.

(** A routine that succeeds on the raw content writes its output to
    [clean_path], whatever that file held before. *)
Lemma run_processing_writes d s c out :
  s (raw_file_path d) = Some c -> processing_function d c = Some out ->
  outcome_of (run_processing d s) = Ok tt /\
  fs_of (run_processing d s) (clean_file_path d) = Some out.
Proof.
  intros Hc Hp. unfold_lc. rewrite Hc. cbn. rewrite Hp. cbn.
  rewrite String.eqb_refl. split; reflexivity.
Qed.

(** A concrete record and file system, for the witnesses. *)
Definition bytes_of (str : string) : bytes :=
  map (fun c => match Byte.of_nat (nat_of_ascii c) with Some b => b | None => Byte.x00 end)
      (list_ascii_of_string str).

Definition banknote_record (expected : string) : Dataset :=
  mkDataset "banknote"
    "https://archive.ics.uci.edu/ml/machine-learning-databases/00267/data_banknote_authentication.txt"
    expected "data/banknote/raw/data_banknote_authentication.txt"
    "data/banknote/banknote.csv" (fun c => Some c).

Definition no_files : fs_t := fun _ => None.

Definition stale_raw : fs_t :=
  fs_update no_files "data/banknote/raw/data_banknote_authentication.txt" (bytes_of "3.6,8.6").

Definition server (len : option string) (payload : string) : string -> Response :=
  fun _ => mkResponse len [bytes_of payload].

(** C1 (counterexample): a run that ends normally writes the clean file
    although no digest was ever compared, when the raw file was already there. *)
Lemma process_writes_clean_unverified :
  let d := banknote_record "0000" in
  let r := process (server None "") (Some d) d stale_raw in
  outcome_of r = Ok tt /\
  In (WriteFile (clean_file_path d)) (events_of r) /\
  clean_write_confirmed d (events_of r) = false.
Proof. vm_compute. split; [reflexivity | split; [auto | reflexivity]]. Qed.

(** C1 (amended): when [raw_path] is missing, [process] downloads it and
    every write of [clean_path] follows a successful digest comparison of
    [raw_path]; when [raw_path] is already present, [process] neither
    downloads nor compares any digest, goes straight to the processing
    routine, and writes its output to [clean_path] whenever it succeeds. *)
Theorem process_clean_write_confirmed_or_trusted net d s :
  (present s (raw_file_path d) = false ->
     downloads (events_of (process net (Some d) d s)) = true /\
     clean_write_confirmed d (events_of (process net (Some d) d s)) = true) /\
  (present s (raw_file_path d) = true ->
     downloads (events_of (process net (Some d) d s)) = false /\
     hash_checked (events_of (process net (Some d) d s)) = false /\
     hd_error (events_of (process net (Some d) d s)) =
       Some (ProcessingCall (raw_file_path d) (clean_file_path d)) /\
     (forall c out, s (raw_file_path d) = Some c -> processing_function d c = Some out ->
        outcome_of (process net (Some d) d s) = Ok tt /\
        fs_of (process net (Some d) d s) (clean_file_path d) = Some out)).
Proof.
  split; intro E.
  - unfold downloads, clean_write_confirmed. unfold present in E. unfold_lc.
    destruct (s (raw_file_path d)); [discriminate|].
    split; split_all; finish.
  - rewrite (process_present net d s E).
    split; [apply run_processing_no_get|].
    split; [apply run_processing_no_hash_check|].
    split; [apply run_processing_first_event|].
    intros c out Hc Hp. apply (run_processing_writes d s c out Hc Hp).
Qed.

Lemma process_clean_write_confirmed_or_trusted_witness :
  let d := banknote_record "0000" in
  present stale_raw (raw_file_path d) = true /\
  Sha256.sha256_hexdigest (bytes_of "3.6,8.6") <> hash d /\
  hash_checked (events_of (process (server None "") (Some d) d stale_raw)) = false /\
  fs_of (process (server None "") (Some d) d stale_raw) (clean_file_path d) =
    Some (bytes_of "3.6,8.6").
Proof.
  cbv zeta.
  assert (Hp : present stale_raw (raw_file_path (banknote_record "0000")) = true)
    by reflexivity.
  split; [exact Hp | split; [vm_compute; discriminate|]].
  destruct (proj2 (process_clean_write_confirmed_or_trusted (server None "")
                     (banknote_record "0000") stale_raw) Hp) as [_ [Hh [_ Hw]]].
  split; [exact Hh|].
  exact (proj2 (Hw (bytes_of "3.6,8.6") (bytes_of "3.6,8.6") eq_refl eq_refl)).
Defined.

(** C2: after a fresh download whose digest differs from [hash], the run
    prints that the record's file is missing, fetches it, prints the
    mismatch message with the record's URL and exits with status 1; the
    clean routine is never called and no file other than [raw_path] changes. *)
Theorem download_mismatch_exits net d s n :
  s (raw_file_path d) = None ->
  int_of_header (content_length (net (url d))) = Ok n ->
  Sha256.sha256_hexdigest (downloaded_content (net (url d))) <> hash d ->
  let r := process net (Some d) d s in
  outcome_of r = Exit 1%Z /\
  events_of r =
    [Print (missing_msg (name d)); MkdirParents (raw_file_path d);
     HttpGet (url d); StreamTo (raw_file_path d);
     HashCompared (raw_file_path d) false; Print (mismatch_msg (url d))] /\
  (forall p, p <> raw_file_path d -> fs_of r p = s p).
Proof.
  intros Habs Hint Hneq. unfold_lc. rewrite Habs, Hint. cbn.
  rewrite String.eqb_refl.
  destruct (String.eqb (Sha256.sha256_hexdigest (downloaded_content (net (url d)))) (hash d))
    eqn:Eh.
  - apply String.eqb_eq in Eh. contradiction.
  - cbn. split; [reflexivity | split; [reflexivity|]].
    intros p Hp. apply String.eqb_neq in Hp. rewrite Hp. reflexivity.
Qed.

Lemma download_mismatch_exits_witness :
  let d := banknote_record "0000" in
  let net := server (Some "7") "3.6,8.6" in
  no_files (raw_file_path d) = None /\
  int_of_header (content_length (net (url d))) = Ok 7%Z /\
  Sha256.sha256_hexdigest (downloaded_content (net (url d))) <> hash d /\
  outcome_of (process net (Some d) d no_files) = Exit 1%Z.
Proof.
  cbv zeta.
  assert (Hn : Sha256.sha256_hexdigest (downloaded_content (server (Some "7") "3.6,8.6"
                 (url (banknote_record "0000")))) <> hash (banknote_record "0000"))
    by (vm_compute; discriminate).
  split; [reflexivity | split; [reflexivity | split; [exact Hn|]]].
  exact (proj1 (download_mismatch_exits (server (Some "7") "3.6,8.6") (banknote_record "0000")
                 no_files 7%Z eq_refl eq_refl Hn)).
Defined.

(** C3: whenever [raw_path] exists, in particular after any earlier run
    that left it in place (one that ended normally, exited on a digest
    mismatch or failed in the routine), [process] makes no network request:
    it goes straight to the processing routine, calls it again, and writes
    the freshly computed output to [clean_path] whatever was there before. *)
Theorem process_rerun_skips_download net d s :
  present s (raw_file_path d) = true ->
  process net (Some d) d s = run_processing d s /\
  downloads (events_of (process net (Some d) d s)) = false /\
  hd_error (events_of (process net (Some d) d s)) =
    Some (ProcessingCall (raw_file_path d) (clean_file_path d)) /\
  (forall c out, s (raw_file_path d) = Some c -> processing_function d c = Some out ->
     outcome_of (process net (Some d) d s) = Ok tt /\
     fs_of (process net (Some d) d s) (clean_file_path d) = Some out).
Proof.
  intro Hp. rewrite (process_present net d s Hp).
  split; [reflexivity|]. split; [apply run_processing_no_get|].
  split; [apply run_processing_first_event|].
  intros c out Hc Hf. apply (run_processing_writes d s c out Hc Hf).
Qed.

(** A first run that downloads a file with the wrong digest exits with status
    1 and leaves the raw file behind; the second run then makes no request. *)
Lemma process_rerun_skips_download_witness :
  let d := banknote_record "0000" in
  let net := server (Some "7") "3.6,8.6" in
  let r1 := process net (Some d) d no_files in
  outcome_of r1 = Exit 1%Z /\
  present (fs_of r1) (raw_file_path d) = true /\
  downloads (events_of (process net (Some d) d (fs_of r1))) = false.
Proof.
  cbv zeta.
  assert (Hp : present (fs_of (process (server (Some "7") "3.6,8.6")
                 (Some (banknote_record "0000")) (banknote_record "0000") no_files))
                 (raw_file_path (banknote_record "0000")) = true)
    by (vm_compute; reflexivity).
  split; [vm_compute; reflexivity | split; [exact Hp|]].
  exact (proj1 (proj2 (process_rerun_skips_download _ _ _ Hp))).
Defined.

(** C4: whether [process] downloads is decided by the presence of [raw_path]
    alone, and a present raw file, whatever its content, is left as it is. *)
Theorem raw_file_never_overwritten net d s :
  raw_file_path d <> clean_file_path d ->
  downloads (events_of (process net (Some d) d s)) = negb (present s (raw_file_path d)) /\
  (forall c, s (raw_file_path d) = Some c ->
             fs_of (process net (Some d) d s) (raw_file_path d) = Some c).
Proof.
  intro Hne. apply String.eqb_neq in Hne. split.
  - unfold downloads, present. unfold_lc.
    destruct (s (raw_file_path d)); split_all; finish.
  - intros c Hc.
    assert (Hp : present s (raw_file_path d) = true) by (unfold present; rewrite Hc; reflexivity).
    rewrite (process_present net d s Hp). unfold_lc. rewrite Hc. cbn.
    split_all; finish.
Qed.

Lemma raw_file_never_overwritten_witness :
  let d := banknote_record "0000" in
  raw_file_path d <> clean_file_path d /\
  fs_of (process (server (Some "7") "x") (Some d) d stale_raw) (raw_file_path d) =
    Some (bytes_of "3.6,8.6").
Proof.
  cbv zeta.
  assert (Hne : raw_file_path (banknote_record "0000") <> clean_file_path (banknote_record "0000"))
    by (vm_compute; discriminate).
  split; [exact Hne|].
  exact (proj2 (raw_file_never_overwritten (server (Some "7") "x") _ stale_raw Hne)
               (bytes_of "3.6,8.6") eq_refl).
Defined.

(** C5: [check_hash] lets the run continue exactly when the SHA-256
    hexdigest of the raw file's bytes equals [hash]; so it accepts a file
    against its own digest and rejects it against any other string. *)
Theorem check_hash_accepts_iff_digest_equal g d s c :
  s (raw_file_path d) = Some c ->
  (outcome_of (check_hash g d s) = Ok tt <-> Sha256.sha256_hexdigest c = hash d).
Proof.
  intro Hc. unfold_lc. rewrite Hc. cbn.
  destruct (String.eqb (Sha256.sha256_hexdigest c) (hash d)) eqn:Eh; cbn.
  - apply String.eqb_eq in Eh. split; auto.
  - apply String.eqb_neq in Eh. destruct g; cbn; split; intro H; try discriminate; contradiction.
Qed.

Lemma check_hash_accepts_iff_digest_equal_witness :
  let d := banknote_record (Sha256.sha256_hexdigest (bytes_of "3.6,8.6")) in
  stale_raw (raw_file_path d) = Some (bytes_of "3.6,8.6") /\
  outcome_of (check_hash (Some d) d stale_raw) = Ok tt.
Proof.
  cbv zeta.
  assert (Hc : stale_raw (raw_file_path (banknote_record
                  (Sha256.sha256_hexdigest (bytes_of "3.6,8.6")))) = Some (bytes_of "3.6,8.6"))
    by reflexivity.
  split; [exact Hc|].
  apply (proj2 (check_hash_accepts_iff_digest_equal _ _ _ _ Hc)). vm_compute. reflexivity.
Defined.

(** C9: when the response has no [Content-Length] header, [int(None)] raises
    before the raw file is opened: the run aborts with [TypeError], no file
    changes and the processing routine is never called. *)
Theorem missing_content_length_aborts net d s :
  s (raw_file_path d) = None ->
  content_length (net (url d)) = None ->
  let r := process net (Some d) d s in
  outcome_of r = Raise "TypeError" /\
  events_of r = [Print (missing_msg (name d)); MkdirParents (raw_file_path d); HttpGet (url d)] /\
  (forall p, fs_of r p = s p).
Proof.
  intros Habs Hlen. unfold_lc. rewrite Habs, Hlen. cbn.
  split; [reflexivity | split; reflexivity].
Qed.

Lemma missing_content_length_aborts_witness :
  let d := banknote_record "0000" in
  no_files (raw_file_path d) = None /\
  content_length (server None "3.6" (url d)) = None /\
  outcome_of (process (server None "3.6") (Some d) d no_files) = Raise "TypeError".
Proof.
  cbv zeta. split; [reflexivity | split; [reflexivity|]].
  exact (proj1 (missing_content_length_aborts (server None "3.6") (banknote_record "0000")
                  no_files eq_refl eq_refl)).
Defined.

(** C10: [verify_downloaded] and [check_hash] read the global [dataset]: the
    download decision follows the presence of the global record's raw file,
    and the mismatch message names the global record's URL. *)
Theorem process_reads_global_dataset net g d s :
  downloads (events_of (process net (Some g) d s)) = negb (present s (raw_file_path g)) /\
  (forall c, s (raw_file_path d) = Some c -> Sha256.sha256_hexdigest c <> hash d ->
     events_of (check_hash (Some g) d s) =
       [HashCompared (raw_file_path d) false; Print (mismatch_msg (url g))]).
Proof.
  split.
  - unfold downloads, present. unfold_lc.
    destruct (s (raw_file_path g)); split_all; finish.
  - intros c Hc Hneq. unfold_lc. rewrite Hc. cbn.
    apply String.eqb_neq in Hneq. rewrite Hneq. reflexivity.
Qed.

(** With the global bound to another record whose raw file exists, a record
    whose own raw file is missing is not downloaded and its routine fails. *)
Lemma process_other_global_skips_download :
  let g := banknote_record "0000" in
  let d := mkDataset "abalone" "https://example.org/abalone.data" "0000"
             "data/abalone/raw/abalone.data" "data/abalone/abalone.csv" (fun c => Some c) in
  let r := process (server (Some "7") "x") (Some g) d stale_raw in
  downloads (events_of r) = false /\ outcome_of r = Raise "FileNotFoundError".
Proof. vm_compute. split; reflexivity. Qed.

(** In the main loop the global is always the record being processed. *)
Lemma main_loop_binds_global net d rest :
  main_loop net (d :: rest) =
  (print (gathering_msg (name d)) ;; process net (Some d) d ;; main_loop net rest).
Proof. reflexivity. Qed.

End LifecycleFacts.

(* ------------------------------------------------------------------------- *)
(** ** Properties of the routines' output *)

Module ScalingFacts.
Import Scaling Banknote.
Open Scope float_scope.

Lemma transform_row_length ps row :
  List.length (transform_row ps row) = Nat.min (List.length ps) (List.length row).
Proof. unfold transform_row. rewrite length_map, length_combine. reflexivity. Qed.

Lemma fit_params_length X : List.length (fit_params X) = width X.
Proof. unfold fit_params. rewrite length_map, length_seq. reflexivity. Qed.

Lemma index_of_none c cs : ~ In c cs -> index_of c cs = None.
Proof.
  induction cs as [|c' cs IH]; intro H; [reflexivity|]. cbn.
  destruct (String.eqb c c') eqn:E.
  - apply String.eqb_eq in E. subst. exfalso. apply H. left. reflexivity.
  - rewrite IH; [reflexivity|]. intro Hin. apply H. right. exact Hin.
Qed.

Lemma append_column_map (f : list float -> list float) (X : list (list float)) (y : list float) :
  map (fun '(row, v) => (row ++ [v])%list) (combine (map f X) y) =
  map (fun '(row, v) => (f row ++ [v])%list) (combine X y).
Proof.
  revert y. induction X as [|r X IH]; intros [|v y]; try reflexivity.
  cbn. rewrite IH. reflexivity.
Qed.

(** The shared tail of every routine: the feature columns, min-max scaled in
    binary64, then a single label column [y] appended last. *)
Lemma scale_and_label_spec names X y :
  ~ In "y"%string names ->
  valid_input X = true ->
  (forall row, In row X -> List.length row = List.length names) ->
  List.length y = List.length X ->
  scale_and_label names X y =
  Some (mkFrame (names ++ ["y"%string])%list
          (map (fun '(row, v) => (transform_row (fit_params X) row ++ [v])%list) (combine X y))).
Proof.
  intros Hy Hv Hw Hl.
  unfold scale_and_label, fit_transform. rewrite Hv.
  assert (Hwidth : width X = List.length names).
  { unfold valid_input in Hv. destruct X as [|r X]; [discriminate|].
    cbn. apply Hw. left. reflexivity. }
  unfold dataframe.
  replace (forallb _ (map (transform_row (fit_params X)) X)) with true.
  2:{ symmetry. apply forallb_forall. intros row Hin.
      apply in_map_iff in Hin. destruct Hin as [r [Hr Hin]]. subst row.
      apply Nat.eqb_eq. rewrite transform_row_length, fit_params_length, Hwidth, (Hw r Hin).
      apply Nat.min_id. }
  unfold setitem. cbn [data columns].
  rewrite length_map, Hl, Nat.eqb_refl. cbn [negb].
  rewrite (index_of_none _ _ Hy). rewrite append_column_map. reflexivity.
Qed.

Lemma read_csv_widths lines w rows :
  read_csv lines = Some (w, rows) -> forall r, In r rows -> List.length r = w.
Proof.
  unfold read_csv.
  destruct (filter _ lines) as [|h recs]; [discriminate|].
  destruct (forallb _ recs) eqn:Hf; [|discriminate].
  intro H. injection H as <- <-. intros r Hin.
  apply in_map_iff in Hin. destruct Hin as [r0 [<- Hin]].
  rewrite forallb_forall in Hf. specialize (Hf r0 Hin). apply Nat.leb_le in Hf.
  unfold pad_row. rewrite length_app, repeat_length. lia.
Qed.

Lemma combine_firstn_labels ps rows :
  map (fun '(row, v) => (transform_row ps row ++ [v])%list)
      (combine (map (firstn 4) rows) (map label_of rows)) =
  map (fun r => (transform_row ps (firstn 4 r) ++ [label_of r])%list) rows.
Proof.
  induction rows as [|r rows IH]; [reflexivity|].
  cbn [map combine]. f_equal. exact IH.
Qed.

(** [process_banknote] on the records pandas reads: the four scaled
    features then [y], which is 1 exactly where the class field equals 1. *)
Lemma process_banknote_spec lines rows :
  read_csv lines = Some (5%nat, rows) ->
  valid_input (map (firstn 4) rows) = true ->
  process_banknote lines =
  Some (mkFrame (feature_names ++ ["y"%string])%list
          (map (fun r => (transform_row (fit_params (map (firstn 4) rows)) (firstn 4 r)
                          ++ [label_of r])%list) rows)).
Proof.
  intros Hr Hv. unfold process_banknote. rewrite Hr. cbn [Nat.eqb negb].
  rewrite scale_and_label_spec.
  - rewrite combine_firstn_labels. reflexivity.
  - cbn. intros [H|[H|[H|[H|[]]]]]; discriminate H.
  - exact Hv.
  - intros row Hin. apply in_map_iff in Hin. destruct Hin as [r [<- Hin]].
    rewrite length_firstn, (read_csv_widths _ _ _ Hr r Hin). reflexivity.
  - rewrite !length_map. reflexivity.
Qed.

(** C6 (counterexample): on a banknote file whose [variance] column holds
    0.125 and 0.875, the scaled column is not constant, yet its maximum is
    0.9999999999999999, not 1. *)
Lemma banknote_column_max_not_one :
  match process_banknote [[1; 2; 3; 4; 0]; [0.125; 1; 2; 3; 1]; [0.875; 2; 2; 4; 0]] with
  | Some f =>
      (nanmax (column (data f) 0) <? 1) &&
      negb (nanmin (column (data f) 0) =? nanmax (column (data f) 0))
  | None => false
  end = true.
Proof. vm_compute. reflexivity. Qed.

(** C6 (amended): every routine ends with [scale_and_label]; when no feature
    column is itself named [y], its table has the feature columns followed by
    one column [y] placed last, and each feature value is [x * scale + min_]
    computed in binary64 with [scale = 1 / (max - min)] (1 for a range below
    [10 * eps]) and [min_ = 0 - min * scale] fitted on that table alone. *)
Theorem scale_and_label_layout names X y :
  ~ In "y"%string names ->
  valid_input X = true ->
  (forall row, In row X -> List.length row = List.length names) ->
  List.length y = List.length X ->
  scale_and_label names X y =
  Some (mkFrame (names ++ ["y"%string])%list
          (map (fun '(row, v) => (transform_row (fit_params X) row ++ [v])%list) (combine X y))).
Proof. apply scale_and_label_spec. Qed.

Lemma scale_and_label_layout_witness :
  scale_and_label ["a"%string] [[2]; [6]] [1; 0] = Some (mkFrame ["a"; "y"]%string [[0; 1]; [1; 0]]).
Proof.
  rewrite (scale_and_label_layout ["a"%string] [[2]; [6]] [1; 0]).
  - vm_compute. reflexivity.
  - cbn. intros [H|H]; [discriminate H | exact H].
  - reflexivity.
  - intros row [<-|[<-|[]]]; reflexivity.
  - reflexivity.
Defined.

(** C7: a banknote file of two records yields a clean table of one row: the
    file has no header line and [read_csv] consumes its first record as one. *)
Theorem process_banknote_drops_first_record :
  option_map (fun f => List.length (data f))
    (process_banknote [[3.5; 8.5; -2.75; -0.5; 0]; [4.5; 8.25; -2.5; -1.5; 0]]) = Some 1%nat.
Proof. vm_compute. reflexivity. Qed.

(** C8 (counterexample): with [variance] values 0.5 and 46, the larger one is
    scaled to 1.0000000000000002, outside [0, 1]. *)
Lemma banknote_feature_above_one :
  match process_banknote [[1; 2; 3; 4; 0]; [0.5; 1; 2; 3; 1]; [46; 2; 2; 4; 0]] with
  | Some f => 1 <? nanmax (column (data f) 0)
  | None => false
  end = true.
Proof. vm_compute. reflexivity. Qed.

(** C8 (amended): on the records [read_csv] returns for a five-column banknote
    file, the clean table has the columns [variance], [skewness], [curtosis],
    [entropy], [y]; each row's [y] is 1 when the record's class field equals 1
    and 0 otherwise, and its four features are the record's fields min-max
    transformed in binary64 with parameters fitted on these records. *)
Theorem process_banknote_labels_and_scaling lines rows :
  read_csv lines = Some (5%nat, rows) ->
  valid_input (map (firstn 4) rows) = true ->
  process_banknote lines =
  Some (mkFrame ["variance"; "skewness"; "curtosis"; "entropy"; "y"]%string
          (map (fun r => (transform_row (fit_params (map (firstn 4) rows)) (firstn 4 r)
                          ++ [if nth 4 r nan =? 1 then 1 else 0])%list) rows)).
Proof. intros Hr Hv. rewrite (process_banknote_spec lines rows Hr Hv). reflexivity. Qed.

Lemma process_banknote_labels_and_scaling_witness :
  read_csv [[1; 2; 3; 4; 0]; [0.5; 1; 2; 3; 1]; [4.5; 2; 2; 4; 0]] =
    Some (5%nat, [[0.5; 1; 2; 3; 1]; [4.5; 2; 2; 4; 0]]) /\
  process_banknote [[1; 2; 3; 4; 0]; [0.5; 1; 2; 3; 1]; [4.5; 2; 2; 4; 0]] =
    Some (mkFrame ["variance"; "skewness"; "curtosis"; "entropy"; "y"]%string
            [[0; 0; 0; 0; 1]; [1; 1; 0; 1; 0]]).
Proof.
  assert (Hr : read_csv [[1; 2; 3; 4; 0]; [0.5; 1; 2; 3; 1]; [4.5; 2; 2; 4; 0]] =
                 Some (5%nat, [[0.5; 1; 2; 3; 1]; [4.5; 2; 2; 4; 0]])) by reflexivity.
  split; [exact Hr|].
  rewrite (process_banknote_labels_and_scaling _ _ Hr); [|vm_compute; reflexivity].
  vm_compute. reflexivity.
Defined.

End ScalingFacts.

(* ------------------------------------------------------------------------- *)
(** ** Properties of [hexdigest] *)

Module Sha256Facts.
Import Sha256 Formats.
Open Scope Z_scope.

Lemma round_length st kw : List.length (round st kw) = List.length st.
Proof.
  destruct st as [|a [|b [|c [|d [|e [|f [|g [|h [|i st]]]]]]]]]; reflexivity.
Qed.

Lemma fold_round_length kws st :
  List.length (fold_left round kws st) = List.length st.
Proof.
  revert st. induction kws as [|kw kws IH]; intro st; [reflexivity|].
  cbn. rewrite IH. apply round_length.
Qed.

Lemma compress_length hs block :
  List.length hs = 8%nat -> List.length (compress hs block) = 8%nat.
Proof.
  intro H. unfold compress.
  rewrite length_map, length_combine, fold_round_length, H. reflexivity.
Qed.

Lemma digest_length msg : List.length (digest msg) = 8%nat.
Proof.
  unfold digest.
  assert (H : List.length H0 = 8%nat) by reflexivity. revert H.
  generalize H0. generalize (blocks_of (List.length (pad msg)) (pad msg)).
  induction l as [|b bs IH]; intros hs Hhs; [exact Hhs|].
  cbn. apply IH. apply compress_length. exact Hhs.
Qed.

Lemma hex_char_digit x : is_lower_hex (hex_char (Z.land x 15)) = true.
Proof.
  change 15 with (Z.ones 4). rewrite Z.land_ones by lia.
  assert (Hb : 0 <= x mod 2 ^ 4 < 16) by (apply Z.mod_pos_bound; reflexivity).
  generalize dependent (x mod 2 ^ 4). intros n Hn.
  rewrite <- (Z2Nat.id n) by lia.
  assert (Hk : (Z.to_nat n < 16)%nat) by lia.
  revert Hk. generalize (Z.to_nat n). clear. intros k Hk.
  do 16 (destruct k as [|k]; [reflexivity|]). lia.
Qed.

Lemma hex_of_word_aux_form n x acc :
  String.length (hex_of_word_aux n x acc) = (n + String.length acc)%nat /\
  all_lower_hex (hex_of_word_aux n x acc) = all_lower_hex acc.
Proof.
  revert x acc. induction n as [|n IH]; intros x acc; [split; reflexivity|].
  cbn [hex_of_word_aux]. destruct (IH (Z.shiftr x 4) (String (hex_char (Z.land x 15)) acc))
    as [Hl Hh].
  rewrite Hl, Hh. cbn. rewrite hex_char_digit. split; [lia | reflexivity].
Qed.

Lemma length_string_app s1 s2 :
  String.length (s1 ++ s2) = (String.length s1 + String.length s2)%nat.
Proof. induction s1 as [|c s1 IH]; cbn; [reflexivity | rewrite IH; reflexivity]. Qed.

Lemma all_lower_hex_app s1 s2 :
  all_lower_hex (s1 ++ s2) = all_lower_hex s1 && all_lower_hex s2.
Proof.
  induction s1 as [|c s1 IH]; cbn; [reflexivity|]. rewrite IH. apply andb_assoc.
Qed.

Lemma hex_words_form ws :
  String.length (fold_right append EmptyString (map hex_of_word ws)) = (8 * List.length ws)%nat /\
  all_lower_hex (fold_right append EmptyString (map hex_of_word ws)) = true.
Proof.
  induction ws as [|w ws [IHl IHh]]; [split; reflexivity|].
  cbn [map fold_right List.length].
  destruct (hex_of_word_aux_form 8 w EmptyString) as [Hl Hh].
  change (hex_of_word_aux 8 w EmptyString) with (hex_of_word w) in Hl, Hh.
  rewrite length_string_app, all_lower_hex_app, Hl, Hh, IHl, IHh.
  split; [cbn; lia | reflexivity].
Qed.

(** [hashlib.sha256(...).hexdigest()] always returns 64 lowercase hexadecimal digits. *)
Theorem hexdigest_is_64_lower_hex data :
  hexdigest_form (sha256_hexdigest data) = true.
Proof.
  unfold hexdigest_form, sha256_hexdigest.
  destruct (hex_words_form (digest (bytes_to_Z data))) as [Hl Hh].
  rewrite Hl, Hh, digest_length. reflexivity.
Qed.

Lemma be_bytes_length n x : List.length (be_bytes n x) = n.
Proof. unfold be_bytes. rewrite length_map, length_seq. reflexivity. Qed.

(** Padding: the message, the byte [0x80], zeros, then the bit length as 8
    big-endian bytes, in the fewest whole 64-byte blocks that hold them. *)
Theorem pad_layout msg :
  (List.length (pad msg) mod 64 = 0)%nat /\
  (List.length msg + 9 <= List.length (pad msg) < List.length msg + 73)%nat /\
  firstn (List.length msg) (pad msg) = msg /\
  nth (List.length msg) (pad msg) 0 = 128 /\
  (forall i, (List.length msg < i < List.length (pad msg) - 8)%nat -> nth i (pad msg) 0 = 0) /\
  skipn (List.length (pad msg) - 8) (pad msg) = be_bytes 8 (8 * Z.of_nat (List.length msg)).
Proof.
  unfold pad. set (l := List.length msg). set (k := (55 - Z.of_nat l) mod 64).
  assert (Hk : 0 <= k < 64) by (apply Z.mod_pos_bound; lia).
  assert (Hlen : List.length (msg ++ [128] ++ repeat 0 (Z.to_nat k) ++ be_bytes 8 (8 * Z.of_nat l))%list
                 = (l + 9 + Z.to_nat k)%nat).
  { rewrite !length_app, repeat_length, be_bytes_length. cbn. fold l. lia. }
  rewrite Hlen. split; [|split; [|split; [|split; [|split]]]].
  - apply Nat2Z.inj. rewrite Nat2Z.inj_mod. change (Z.of_nat 0) with 0.
    rewrite !Nat2Z.inj_add, Z2Nat.id by lia. unfold k.
    rewrite Z.add_mod_idemp_r by lia.
    replace (Z.of_nat l + Z.of_nat 9 + (55 - Z.of_nat l)) with 64 by lia. reflexivity.
  - lia.
  - rewrite firstn_app, Nat.sub_diag, firstn_O, app_nil_r. apply firstn_all.
  - rewrite app_nth2 by lia. rewrite Nat.sub_diag. reflexivity.
  - intros i Hi. rewrite app_nth2 by lia.
    fold l. replace (i - l)%nat with (S (i - l - 1)) by lia. cbn [app nth].
    rewrite app_nth1 by (rewrite repeat_length; lia).
    apply nth_repeat.
  - rewrite !app_assoc.
    replace (l + 9 + Z.to_nat k - 8)%nat
      with (List.length ((msg ++ [128]) ++ repeat 0 (Z.to_nat k)))%list.
    + rewrite skipn_app, skipn_all, Nat.sub_diag. reflexivity.
    + rewrite !length_app, repeat_length. cbn. fold l. lia.
Qed.

End Sha256Facts.

(* ------------------------------------------------------------------------- *)
(** ** Properties of the [datasets] table *)

Module TableFacts.
Import Lifecycle Table Formats.
Open Scope string_scope.

Lemma nodupb_NoDup l : nodupb l = true -> NoDup l.
Proof.
  induction l as [|x r IH]; intro H; constructor.
  - cbn in H. apply andb_prop in H as [H _]. apply negb_true_iff in H.
    intro Hin. assert (E : existsb (String.eqb x) r = true)
      by (apply existsb_exists; exists x; split; [exact Hin | apply String.eqb_refl]).
    congruence.
  - apply IH. cbn in H. apply andb_prop in H as [_ H]. exact H.
Qed.

Lemma NoDup_map_injective {A B} (f : A -> B) l :
  (forall x y, f x = f y -> x = y) -> NoDup l -> NoDup (map f l).
Proof.
  intros Hinj H. induction H as [|x l Hx H IH]; cbn; constructor; [|exact IH].
  intro Hin. apply in_map_iff in Hin as [y [Hy Hin]].
  apply Hinj in Hy. subst y. contradiction.
Qed.

Lemma all_paths_map resolve pa pb pc pd pe pf pg ph :
  all_paths (datasets resolve pa pb pc pd pe pf pg ph) =
  map resolve (all_paths (datasets (fun p => p) pa pb pc pd pe pf pg ph)).
Proof. reflexivity. Qed.

(** The table of [__main__]: record names are distinct, every expected hash
    has the form [hexdigest] produces, and, [resolve] being injective, no two
    paths coincide (so no raw file is any record's clean file). *)
Theorem datasets_table_well_formed resolve pa pb pc pd pe pf pg ph :
  (forall p q, resolve p = resolve q -> p = q) ->
  let ds := datasets resolve pa pb pc pd pe pf pg ph in
  NoDup (map name ds) /\
  NoDup (all_paths ds) /\
  Forall (fun d => hexdigest_form (hash d) = true) ds.
Proof.
  intros Hinj ds. split; [|split].
  - apply nodupb_NoDup. vm_compute. reflexivity.
  - unfold ds. rewrite all_paths_map. apply NoDup_map_injective; [exact Hinj|].
    apply nodupb_NoDup. vm_compute. reflexivity.
  - repeat constructor.
Qed.

Lemma datasets_table_well_formed_witness :
  let nop := fun _ : bytes => @None bytes in
  (forall p q : path, (fun x => x) p = (fun x => x) q -> p = q) /\
  NoDup (all_paths (datasets (fun x => x) nop nop nop nop nop nop nop nop)).
Proof.
  cbv zeta. assert (H : forall p q : path, (fun x => x) p = (fun x => x) q -> p = q) by auto.
  split; [exact H|].
  exact (proj1 (proj2 (datasets_table_well_formed _ _ _ _ _ _ _ _ _ H))).
Defined.

End TableFacts.

(* ------------------------------------------------------------------------- *)
(** ** Properties of runs *)

Module RunFacts.
Import Lifecycle Traces RunTraces LifecycleFacts.
Open Scope string_scope.

Lemma keeps_bind {A B} p (m : M A) (k : A -> M B) :
  keeps p m -> (forall a, keeps p (k a)) -> keeps p (bind m k).
Proof.
  intros Hm Hk s. unfold bind. specialize (Hm s). unfold fs_of in *.
  destruct (m s) as [[o s1] l1]. cbn in Hm. destruct o; cbn; try exact Hm.
  specialize (Hk a s1). destruct (k a s1) as [[o2 s2] l2]. cbn in *. congruence.
Qed.

Lemma keeps_ret {A} p (a : A) : keeps p (ret a).
Proof. intro s. reflexivity. Qed.
Lemma keeps_emit p e : keeps p (emit e).
Proof. intro s. reflexivity. Qed.
Lemma keeps_print p msg : keeps p (print msg).
Proof. intro s. reflexivity. Qed.
Lemma keeps_raise {A} p e : keeps p (@raise A e).
Proof. intro s. reflexivity. Qed.
Lemma keeps_exit {A} p c : keeps p (@sys_exit A c).
Proof. intro s. reflexivity. Qed.
Lemma keeps_path_exists p q : keeps p (path_exists q).
Proof. intro s. reflexivity. Qed.
Lemma keeps_py_int p x : keeps p (py_int x).
Proof. intro s. reflexivity. Qed.
Lemma keeps_global p g : keeps p (global_dataset g).
Proof. destruct g; intro s; reflexivity. Qed.
Lemma keeps_read p q : keeps p (read_file q).
Proof. intro s. unfold read_file. destruct (s q); reflexivity. Qed.
Lemma keeps_store p q c : p <> q -> keeps p (store q c).
Proof.
  intros H s. unfold store, fs_of, fs_update. cbn.
  apply String.eqb_neq in H. rewrite H. reflexivity.
Qed.

Ltac keeps_tac :=
  repeat first
    [ apply keeps_bind; intros
    | apply keeps_ret | apply keeps_emit | apply keeps_print | apply keeps_raise
    | apply keeps_exit | apply keeps_path_exists | apply keeps_py_int
    | apply keeps_global | apply keeps_read
    | match goal with
      | |- keeps _ (let _ := _ in _) => cbv zeta
      | |- keeps _ (if ?b then _ else _) => destruct b
      | |- keeps _ (match ?x with Some _ => _ | None => _ end) => destruct x
      end ].

Lemma check_hash_keeps g d p : keeps p (check_hash g d).
Proof. unfold check_hash. keeps_tac. Qed.

Lemma download_file_keeps net g d p :
  p <> raw_file_path d -> keeps p (download_file net g d).
Proof.
  intro H. unfold download_file. keeps_tac. apply keeps_store. exact H.
Qed.

Lemma verify_downloaded_keeps net g d p :
  p <> raw_file_path d -> keeps p (verify_downloaded net g d).
Proof. intro H. unfold verify_downloaded. keeps_tac. apply keeps_store. exact H. Qed.

Lemma run_processing_keeps d p :
  p <> clean_file_path d -> keeps p (run_processing d).
Proof. intro H. unfold run_processing. keeps_tac. apply keeps_store. exact H. Qed.

Lemma process_keeps net g d p :
  p <> raw_file_path d -> p <> clean_file_path d -> keeps p (process net g d).
Proof.
  intros H1 H2. unfold process. apply keeps_bind; intros.
  - apply verify_downloaded_keeps. exact H1.
  - apply run_processing_keeps. exact H2.
Qed.

(** A run of the main loop writes no file other than the records' raw and
    clean files: any other path keeps its content, whether the run ends
    normally, by [exit] or by an exception. *)
Theorem main_loop_writes_only_dataset_files net ds s p :
  Forall (fun d => p <> raw_file_path d /\ p <> clean_file_path d) ds ->
  fs_of (main_loop net ds s) p = s p.
Proof.
  intro H. revert s. change (keeps p (main_loop net ds)).
  induction H as [|d ds [H1 H2] _ IH]; cbn [main_loop].
  - apply keeps_ret.
  - apply keeps_bind; intros; [apply keeps_print|].
    apply keeps_bind; intros; [apply process_keeps; assumption | exact IH].
Qed.

Lemma main_loop_writes_only_dataset_files_witness :
  let d := banknote_record "0000" in
  Forall (fun d => "notes.txt" <> raw_file_path d /\ "notes.txt" <> clean_file_path d) [d] /\
  fs_of (main_loop (server (Some "7") "3.6") [d] stale_raw) "notes.txt" = stale_raw "notes.txt".
Proof.
  cbv zeta.
  assert (H : Forall (fun d => "notes.txt" <> raw_file_path d /\ "notes.txt" <> clean_file_path d)
                [banknote_record "0000"])
    by (repeat constructor; vm_compute; discriminate).
  split; [exact H | exact (main_loop_writes_only_dataset_files _ _ _ _ H)].
Defined.

Lemma concat_skip_empty (l : list bytes) :
  List.concat (filter (fun ch => match ch with [] => false | _ => true end) l) = List.concat l.
Proof. induction l as [|[|b ch] l IH]; cbn; [reflexivity | exact IH | rewrite IH; reflexivity]. Qed.

(** [download_file] leaves in [raw_file_path] the concatenation of all the
    response's chunks (skipping empty ones changes nothing), and the file
    stays there even when the digest check then exits. *)
Theorem download_file_stores_body net g d s n :
  int_of_header (content_length (net (url d))) = Ok n ->
  fs_of (download_file net g d s) (raw_file_path d) =
  Some (List.concat (body_chunks (net (url d)))).
Proof.
  intro H. unfold download_file, bind, emit, py_int, store. cbn. rewrite H. cbn.
  pose proof (check_hash_keeps g d (raw_file_path d)
                (fs_update s (raw_file_path d) (downloaded_content (net (url d))))) as Hk.
  unfold fs_of in *.
  destruct (check_hash g d (fs_update s (raw_file_path d) (downloaded_content (net (url d)))))
    as [[o s2] l2].
  cbn in *. rewrite Hk. unfold fs_update. rewrite String.eqb_refl.
  unfold downloaded_content. rewrite concat_skip_empty. reflexivity.
Qed.

Lemma download_file_stores_body_witness :
  let d := banknote_record "0000" in
  let net := fun _ : string => mkResponse (Some "8") [bytes_of "3.6,"; []; bytes_of "8.6"] in
  int_of_header (content_length (net (url d))) = Ok 8%Z /\
  outcome_of (download_file net (Some d) d no_files) = Exit 1%Z /\
  fs_of (download_file net (Some d) d no_files) (raw_file_path d) = Some (bytes_of "3.6,8.6").
Proof.
  cbv zeta.
  assert (H : int_of_header (content_length
                ((fun _ : string => mkResponse (Some "8") [bytes_of "3.6,"; []; bytes_of "8.6"])
                   (url (banknote_record "0000")))) = Ok 8%Z) by reflexivity.
  split; [exact H | split; [vm_compute; reflexivity|]].
  rewrite (download_file_stores_body _ _ _ _ _ H). reflexivity.
Defined.

(** Monad laws used to compose runs. *)
Lemma bind_assoc {A B C} (m : M A) (k : A -> M B) (h : B -> M C) s :
  bind (bind m k) h s = bind m (fun a => bind (k a) h) s.
Proof.
  unfold bind. destruct (m s) as [[o s1] l1]. destruct o as [a| |]; [|reflexivity|reflexivity].
  destruct (k a s1) as [[o2 s2] l2]. destruct o2 as [b| |]; [|reflexivity|reflexivity].
  destruct (h b s2) as [[o3 s3] l3]. rewrite app_assoc. reflexivity.
Qed.

Lemma bind_ext {A B} (m : M A) (k1 k2 : A -> M B) s :
  (forall a s', k1 a s' = k2 a s') -> bind m k1 s = bind m k2 s.
Proof.
  intro H. unfold bind. destruct (m s) as [[o s1] l1]. destruct o; [|reflexivity|reflexivity].
  rewrite H. reflexivity.
Qed.

Lemma bind_ret_l {B} (k : unit -> M B) s : bind (ret tt) k s = k tt s.
Proof. unfold bind, ret. destruct (k tt s) as [[o s1] l1]. reflexivity. Qed.

Lemma main_loop_app_spec net ds rest s :
  main_loop net (ds ++ rest) s = (main_loop net ds ;; main_loop net rest) s.
Proof.
  revert s. induction ds as [|d ds IH]; intro s.
  - cbn [app main_loop]. symmetry. apply bind_ret_l.
  - cbn [app main_loop]. rewrite bind_assoc. apply bind_ext. intros [] s1.
    rewrite bind_assoc. apply bind_ext. intros [] s2. apply IH.
Qed.

(** Once a record's run exits or raises, the loop stops: the records after
    it are never gathered, downloaded or processed, and the run ends as that
    record's part of the loop did. *)
Theorem main_loop_stops_at_failure net ds rest s :
  (forall u, outcome_of (main_loop net ds s) <> Ok u) ->
  main_loop net (ds ++ rest) s = main_loop net ds s.
Proof.
  intro H. rewrite main_loop_app_spec. unfold bind. unfold outcome_of in H.
  destruct (main_loop net ds s) as [[o s1] l1]. cbn in H.
  destruct o as [u| |]; [exfalso; exact (H u eq_refl)|reflexivity|reflexivity].
Qed.

Lemma main_loop_stops_at_failure_witness :
  let d := banknote_record "0000" in
  let net := server (Some "7") "3.6,8.6" in
  (forall u, outcome_of (main_loop net [d] no_files) <> Ok u) /\
  main_loop net ([d] ++ [d]) no_files = main_loop net [d] no_files.
Proof.
  cbv zeta.
  assert (H : forall u, outcome_of (main_loop (server (Some "7") "3.6,8.6")
                [banknote_record "0000"] no_files) <> Ok u)
    by (intro u; vm_compute; discriminate).
  split; [exact H | exact (main_loop_stops_at_failure _ _ _ _ H)].
Defined.

Lemma calls_app l1 l2 : calls (l1 ++ l2) = (calls l1 ++ calls l2)%list.
Proof. unfold calls. apply flat_map_app. Qed.

Lemma calls_print msg l : calls (Print msg :: l) = calls l.
Proof. reflexivity. Qed.

Lemma process_ok_calls net d s :
  outcome_of (process net (Some d) d s) = Ok tt ->
  calls (events_of (process net (Some d) d s)) = [(raw_file_path d, clean_file_path d)].
Proof. unfold calls. unfold_lc. split_all; finish. Qed.

(** A main loop that ends normally called each record's routine exactly
    once, in the order of the list, on that record's raw and clean paths. *)
Theorem main_loop_ok_calls_each_once net ds s :
  outcome_of (main_loop net ds s) = Ok tt ->
  calls (events_of (main_loop net ds s)) =
  map (fun d => (raw_file_path d, clean_file_path d)) ds.
Proof.
  revert s. induction ds as [|d ds IH]; intros s H; [reflexivity|].
  cbn [main_loop] in *. unfold bind, print, emit in *. cbn -[calls] in *.
  pose proof (process_ok_calls net d s) as Hp.
  destruct (process net (Some d) d s) as [[o s1] l1]. cbn -[calls] in *.
  destruct o as [[]| |]; [|discriminate|discriminate].
  specialize (IH s1).
  destruct (main_loop net ds s1) as [[o2 s2] l2]. cbn -[calls] in *.
  rewrite calls_print, calls_app, Hp, IH by (exact H || reflexivity). reflexivity.
Qed.

Lemma main_loop_ok_calls_each_once_witness :
  let d := banknote_record (Sha256.sha256_hexdigest (bytes_of "3.6")) in
  outcome_of (main_loop (server (Some "3") "3.6") [d; d] no_files) = Ok tt /\
  calls (events_of (main_loop (server (Some "3") "3.6") [d; d] no_files)) =
    [(raw_file_path d, clean_file_path d); (raw_file_path d, clean_file_path d)].
Proof.
  cbv zeta.
  assert (H : outcome_of (main_loop (server (Some "3") "3.6")
                [banknote_record (Sha256.sha256_hexdigest (bytes_of "3.6"));
                 banknote_record (Sha256.sha256_hexdigest (bytes_of "3.6"))] no_files) = Ok tt)
    by (vm_compute; reflexivity).
  split; [exact H | exact (main_loop_ok_calls_each_once _ _ _ H)].
Defined.

End RunFacts.

(* ------------------------------------------------------------------------- *)
(** ** Properties of frames and of the scaler *)

Module FrameFacts.
Import Scaling Frames ScalingFacts.
Open Scope float_scope.

Lemma index_of_some c cs i :
  index_of c cs = Some i -> (i < List.length cs)%nat /\ nth i cs ""%string = c.
Proof.
  revert i. induction cs as [|c' cs IH]; intros i H; [discriminate|]. cbn in H.
  destruct (String.eqb c c') eqn:E.
  - injection H as <-. apply String.eqb_eq in E. subst. cbn. split; [lia | reflexivity].
  - destruct (index_of c cs) as [j|] eqn:Ej; [|discriminate]. injection H as <-.
    destruct (IH j eq_refl) as [Hl Hn]. cbn. split; [lia | exact Hn].
Qed.

Lemma index_of_app_new c cs : ~ In c cs -> index_of c (cs ++ [c])%list = Some (List.length cs).
Proof.
  induction cs as [|c' cs IH]; intro H; cbn; [rewrite String.eqb_refl; reflexivity|].
  destruct (String.eqb c c') eqn:E.
  - apply String.eqb_eq in E. subst. exfalso. apply H. left. reflexivity.
  - rewrite IH; [reflexivity|]. intro Hin. apply H. right. exact Hin.
Qed.

Lemma index_of_app_other c c' cs : c' <> c -> index_of c' (cs ++ [c])%list = index_of c' cs.
Proof.
  intro H. induction cs as [|x cs IH]; cbn.
  - apply String.eqb_neq in H. rewrite H. reflexivity.
  - destruct (String.eqb c' x); [reflexivity|]. rewrite IH. reflexivity.
Qed.

Lemma in_index_of c cs : In c cs -> exists i, index_of c cs = Some i.
Proof.
  induction cs as [|x cs IH]; intro H; [destruct H|]. cbn.
  destruct (String.eqb c x) eqn:E; [eexists; reflexivity|].
  destruct H as [H|H].
  - subst. rewrite String.eqb_refl in E. discriminate.
  - destruct (IH H) as [i Hi]. rewrite Hi. eexists. reflexivity.
Qed.

Lemma existsb_index_of c cs :
  existsb (String.eqb c) cs = match index_of c cs with Some _ => true | None => false end.
Proof.
  induction cs as [|x cs IH]; [reflexivity|]. cbn.
  destruct (String.eqb c x); [reflexivity|]. rewrite IH. destruct (index_of c cs); reflexivity.
Qed.

Lemma replace_at_length n v row : List.length (replace_at n v row) = List.length row.
Proof.
  revert n. induction row as [|x row IH]; intros [|n]; cbn; try reflexivity. rewrite IH. reflexivity.
Qed.

Lemma nth_replace_at_same n v row d : (n < List.length row)%nat -> nth n (replace_at n v row) d = v.
Proof.
  revert n. induction row as [|x row IH]; intros [|n] H; cbn in *; try lia; [reflexivity|].
  apply IH. lia.
Qed.

Lemma nth_replace_at_other n m v row d : n <> m -> nth m (replace_at n v row) d = nth m row d.
Proof.
  revert n m. induction row as [|x row IH]; intros [|n] [|m] H; cbn; try reflexivity; try lia.
  apply IH. lia.
Qed.

Lemma map_pairs_eq {A B C} (f : A * B -> C) (g : A -> B -> C) X vs :
  List.length vs = List.length X ->
  (forall row v, In row X -> f (row, v) = g row v) ->
  map f (combine X vs) = map (fun '(row, v) => g row v) (combine X vs).
Proof.
  revert vs. induction X as [|r X IH]; intros [|v vs] Hl H; cbn in *; try reflexivity; try lia.
  rewrite H by (left; reflexivity). f_equal. apply IH; [lia|]. intros; apply H; right; assumption.
Qed.

Lemma map_nth_combine (h : list float -> float -> list float) j X vs :
  List.length vs = List.length X ->
  (forall row v, In row X -> nth j (h row v) nan = v) ->
  map (fun row => nth j row nan) (map (fun '(row, v) => h row v) (combine X vs)) = vs.
Proof.
  revert vs. induction X as [|r X IH]; intros [|v vs] Hl H; cbn in *; try reflexivity; try lia.
  rewrite H by (left; reflexivity). f_equal. apply IH; [lia|]. intros; apply H; right; assumption.
Qed.

Lemma map_nth_combine_other (h : list float -> float -> list float) j X vs :
  List.length vs = List.length X ->
  (forall row v, In row X -> nth j (h row v) nan = nth j row nan) ->
  map (fun row => nth j row nan) (map (fun '(row, v) => h row v) (combine X vs)) =
  map (fun row => nth j row nan) X.
Proof.
  revert vs. induction X as [|r X IH]; intros [|v vs] Hl H; cbn in *; try reflexivity; try lia.
  rewrite H by (left; reflexivity). f_equal. apply IH; [lia|]. intros; apply H; right; assumption.
Qed.

(** Assignment of a column, then reading columns back. *)
Lemma setitem_getitem_spec f c vs :
  rectangular f ->
  (setitem f c vs = None <-> List.length vs <> List.length (data f)) /\
  (forall f', setitem f c vs = Some f' ->
     columns f' = (if existsb (String.eqb c) (columns f) then columns f
                   else columns f ++ [c])%list /\
     getitem f' c = Some vs /\
     (forall c', c' <> c -> getitem f' c' = getitem f c') /\
     List.length (data f') = List.length (data f)).
Proof.
  intro Hrect. unfold setitem.
  destruct (Nat.eqb (List.length vs) (List.length (data f))) eqn:El; cbn [negb].
  2:{ apply Nat.eqb_neq in El. split; [split; auto|]. intros f' H; discriminate. }
  apply Nat.eqb_eq in El.
  split; [split; [intro H; destruct (index_of c (columns f)); discriminate | intro H; contradiction]|].
  intros f' Hf. rewrite existsb_index_of.
  destruct (index_of c (columns f)) as [i|] eqn:Ei; injection Hf as <-.
  - destruct (index_of_some _ _ _ Ei) as [Hi Hn].
    split; [reflexivity|]. split; [|split].
    + unfold getitem. cbn [columns data]. rewrite Ei. f_equal.
      apply map_nth_combine; [exact El|].
      intros row v Hin. apply nth_replace_at_same. rewrite (Hrect row Hin). exact Hi.
    + intros c' Hc'. unfold getitem. cbn [columns data].
      destruct (index_of c' (columns f)) as [j|] eqn:Ej; [|reflexivity].
      destruct (index_of_some _ _ _ Ej) as [_ Hm]. f_equal.
      apply map_nth_combine_other; [exact El|].
      intros row v _. apply nth_replace_at_other. intros ->. apply Hc'. congruence.
    + cbn [data]. rewrite length_map, length_combine, El. apply Nat.min_id.
  - assert (Hnot : ~ In c (columns f)).
    { intro Hin. destruct (in_index_of _ _ Hin) as [j Hj]. congruence. }
    split; [reflexivity|]. split; [|split].
    + unfold getitem. cbn [columns data]. rewrite (index_of_app_new _ _ Hnot). f_equal.
      apply map_nth_combine; [exact El|].
      intros row v Hin. rewrite app_nth2 by (rewrite (Hrect row Hin); lia).
      rewrite (Hrect row Hin), Nat.sub_diag. reflexivity.
    + intros c' Hc'. unfold getitem. cbn [columns data]. rewrite (index_of_app_other _ _ _ Hc').
      destruct (index_of c' (columns f)) as [j|] eqn:Ej; [|reflexivity].
      destruct (index_of_some _ _ _ Ej) as [Hj _]. f_equal.
      apply map_nth_combine_other; [exact El|].
      intros row v Hin. apply app_nth1. rewrite (Hrect row Hin). exact Hj.
    + cbn [data]. rewrite length_map, length_combine, El. apply Nat.min_id.
Qed.

(** [df[c] = values] then [df[c]], for a [values] array on a frame with at
    least one row and distinct labels, as the routines' [X["y"] = y] is:
    assignment raises exactly on a length mismatch; otherwise it overwrites
    [c] in place when present and appends it last when not, reading [c] back
    gives [values], every other column reads as before, and the number of
    rows is unchanged. (Pandas instead reindexes a frame with no rows to the
    length of [values], and assigns every column of a repeated label.) *)
Theorem setitem_getitem f c vs :
  rectangular f -> data f <> [] -> NoDup (columns f) ->
  (setitem f c vs = None <-> List.length vs <> List.length (data f)) /\
  (forall f', setitem f c vs = Some f' ->
     columns f' = (if existsb (String.eqb c) (columns f) then columns f
                   else columns f ++ [c])%list /\
     getitem f' c = Some vs /\
     (forall c', c' <> c -> getitem f' c' = getitem f c') /\
     List.length (data f') = List.length (data f)).
Proof. intros Hr _ _. apply setitem_getitem_spec, Hr. Qed.

Lemma setitem_getitem_witness :
  let f := mkFrame ["a"; "y"]%string [[1; 2]; [3; 4]] in
  rectangular f /\ data f <> [] /\ NoDup (columns f) /\
  setitem f "y"%string [5; 6] = Some (mkFrame ["a"; "y"]%string [[1; 5]; [3; 6]]) /\
  getitem (mkFrame ["a"; "y"]%string [[1; 5]; [3; 6]]) "y"%string = Some [5; 6].
Proof.
  cbv zeta.
  assert (Hr : rectangular (mkFrame ["a"; "y"]%string [[1; 2]; [3; 4]]))
    by (intros row [<-|[<-|[]]]; reflexivity).
  assert (Hd : data (mkFrame ["a"; "y"]%string [[1; 2]; [3; 4]]) <> []) by discriminate.
  assert (Hn : NoDup (columns (mkFrame ["a"; "y"]%string [[1; 2]; [3; 4]]))).
  { cbn. constructor; [intros [H|[]]; discriminate H|].
    constructor; [intros []|constructor]. }
  assert (Hs : setitem (mkFrame ["a"; "y"]%string [[1; 2]; [3; 4]]) "y"%string [5; 6] =
               Some (mkFrame ["a"; "y"]%string [[1; 5]; [3; 6]])) by reflexivity.
  split; [exact Hr | split; [exact Hd | split; [exact Hn | split; [exact Hs|]]]].
  exact (proj1 (proj2 (proj2 (setitem_getitem _ _ _ Hr Hd Hn) _ Hs))).
Defined.

(** NaN as the IEEE 754 specification sees it. *)
Lemma is_nan_Prim2SF x : is_nan x = true -> Prim2SF x = S754_nan.
Proof.
  unfold is_nan. rewrite eqb_spec. intro H.
  destruct (Prim2SF x) as [b|b| |b m e]; [| | reflexivity |];
    destruct b; cbn in H; rewrite ?Z.compare_refl, ?Pos.compare_cont_refl in H; discriminate.
Qed.

Lemma Prim2SF_is_nan x : Prim2SF x = S754_nan -> is_nan x = true.
Proof. intro H. unfold is_nan. rewrite eqb_spec, H. reflexivity. Qed.

Lemma nan_affine x a b : is_nan x = true -> is_nan (x * a + b) = true.
Proof.
  intro H. apply Prim2SF_is_nan. rewrite add_spec, mul_spec, (is_nan_Prim2SF x H). reflexivity.
Qed.

Lemma fold_skip_nan {A} (step : A -> float -> A) col acc :
  (forall acc x, is_nan x = true -> step acc x = acc) ->
  fold_left step (filter (fun x => negb (is_nan x)) col) acc = fold_left step col acc.
Proof.
  intro Hs. revert acc. induction col as [|x col IH]; intro acc; [reflexivity|].
  cbn. destruct (is_nan x) eqn:E; cbn.
  - rewrite (Hs acc x E). apply IH.
  - apply IH.
Qed.

Lemma nan_extremum_skip better col :
  nan_extremum better (filter (fun x => negb (is_nan x)) col) = nan_extremum better col.
Proof.
  unfold nan_extremum. rewrite fold_skip_nan; [reflexivity|].
  intros acc x H. rewrite H. reflexivity.
Qed.

Lemma fit_column_skip_nan col :
  fit_column (filter (fun x => negb (is_nan x)) col) = fit_column col.
Proof. unfold fit_column, nanmin, nanmax. rewrite !nan_extremum_skip. reflexivity. Qed.

Lemma nth_combine_lt {A B} (l1 : list A) (l2 : list B) j d1 d2 :
  (j < List.length l1)%nat -> (j < List.length l2)%nat ->
  nth j (combine l1 l2) (d1, d2) = (nth j l1 d1, nth j l2 d2).
Proof.
  revert l2 j. induction l1 as [|x l1 IH]; intros [|y l2] [|j] H1 H2; cbn in *; try lia;
    [reflexivity|]. apply IH; lia.
Qed.

(** [MinMaxScaler] treats NaN as a missing value: the parameters of each
    column are those fitted on its non-NaN entries alone, and a NaN entry is
    still NaN after [fit_transform]. *)
Theorem minmax_nan_is_missing X Xs :
  fit_transform X = Some Xs ->
  fit_params X =
    map (fun j => fit_column (filter (fun x => negb (is_nan x)) (column X j))) (seq 0 (width X)) /\
  (forall i j, (j < width X)%nat -> is_nan (nth j (nth i X []) 0) = true ->
     is_nan (nth j (nth i Xs []) 0) = true).
Proof.
  unfold fit_transform. destruct (valid_input X); intro H; [|discriminate]. injection H as <-.
  split.
  - unfold fit_params. apply map_ext. intro j. symmetry. apply fit_column_skip_nan.
  - intros i j Hj Hn.
    destruct (Nat.lt_ge_cases i (List.length X)) as [Hi|Hi].
    2:{ rewrite (nth_overflow X) in Hn by exact Hi. destruct j; discriminate. }
    rewrite nth_indep with (d' := transform_row (fit_params X) [])
      by (rewrite length_map; exact Hi).
    rewrite map_nth.
    set (row := nth i X []) in *.
    destruct (Nat.lt_ge_cases j (List.length row)) as [Hr|Hr].
    2:{ rewrite (nth_overflow row) in Hn by exact Hr. discriminate. }
    assert (Hp : (j < List.length (fit_params X))%nat) by (rewrite fit_params_length; exact Hj).
    unfold transform_row.
    assert (E : forall (f : (float * float) * float -> float) l d,
               (j < List.length l)%nat -> nth j (map f l) 0 = f (nth j l d)).
    { intros f l d Hl. rewrite nth_indep with (d' := f d) by (rewrite length_map; exact Hl).
      apply map_nth. }
    rewrite (E _ _ ((0, 0), 0)) by (rewrite length_combine; lia).
    rewrite nth_combine_lt by assumption. cbv beta iota.
    apply nan_affine. exact Hn.
Qed.

Lemma minmax_nan_is_missing_witness :
  fit_transform [[1; nan]; [3; 2]; [5; 4]] = Some [[0; nan]; [0.5; 0]; [1; 1]] /\
  is_nan (nth 1 (nth 0 [[0; nan]; [0.5; 0]; [1; 1]] []) 0) = true.
Proof.
  assert (H : fit_transform [[1; nan]; [3; 2]; [5; 4]] = Some [[0; nan]; [0.5; 0]; [1; 1]])
    by (vm_compute; reflexivity).
  split; [exact H|].
  apply (proj2 (minmax_nan_is_missing _ _ H) 0%nat 1%nat); [vm_compute; lia | reflexivity].
Defined.

End FrameFacts.

(* ------------------------------------------------------------------------- *)
(** ** Properties of the pandas routines *)

Module PandasFacts.
Import Scaling ScalingFacts Frames FrameFacts Pandas.
Open Scope float_scope.

Lemma existsb_eqb_In x l : existsb (String.eqb x) l = true <-> In x l.
Proof.
  rewrite existsb_exists. split.
  - intros [y [Hy E]]. apply String.eqb_eq in E. subst. exact Hy.
  - intro H. exists x. split; [exact H | apply String.eqb_refl].
Qed.

Lemma insert_sorted_perm x l : Permutation (insert_sorted x l) (x :: l).
Proof.
  induction l as [|y r IH]; cbn; [reflexivity|].
  destruct (String.leb x y); [reflexivity|].
  eapply perm_trans; [apply perm_skip, IH | apply perm_swap].
Qed.

Lemma sort_strings_perm l : Permutation (sort_strings l) l.
Proof.
  induction l as [|x r IH]; cbn; [reflexivity|].
  eapply perm_trans; [apply insert_sorted_perm | apply perm_skip, IH].
Qed.

Lemma insert_sorted_sorted x l :
  Sorted (fun a b => String.leb a b = true) l ->
  Sorted (fun a b => String.leb a b = true) (insert_sorted x l).
Proof.
  induction l as [|y r IH]; intro H; cbn.
  - repeat constructor.
  - destruct (String.leb x y) eqn:E.
    + constructor; [exact H | constructor; exact E].
    + apply Sorted_inv in H as [Hr Hh]. constructor; [apply IH, Hr|].
      assert (Eyx : String.leb y x = true) by (destruct (String.leb_total x y); congruence).
      destruct r as [|z r]; cbn; [constructor; exact Eyx|].
      destruct (String.leb x z); constructor; [exact Eyx | apply HdRel_inv in Hh; exact Hh].
Qed.

Lemma sort_strings_sorted l : Sorted (fun a b => String.leb a b = true) (sort_strings l).
Proof.
  induction l as [|x r IH]; cbn; [constructor | apply insert_sorted_sorted, IH].
Qed.

Lemma uniques_acc l acc :
  NoDup acc ->
  NoDup (fold_left uniq_step l acc) /\
  (forall x, In x (fold_left uniq_step l acc) <-> In x acc \/ In x l).
Proof.
  revert acc. induction l as [|y l IH]; intros acc Hacc; cbn [fold_left In].
  - split; [exact Hacc|]. intro x. tauto.
  - assert (Hstep : uniq_step acc y =
                    if existsb (String.eqb y) acc then acc else (acc ++ [y])%list) by reflexivity.
    rewrite Hstep. destruct (existsb (String.eqb y) acc) eqn:E.
    + apply existsb_eqb_In in E.
      destruct (IH acc Hacc) as [Hn Hi]. split; [exact Hn|].
      intro x. rewrite Hi. split; [tauto|]. intros [H|[<-|H]]; tauto.
    + assert (Hy : ~ In y acc) by (intro H; apply existsb_eqb_In in H; congruence).
      assert (Hn' : NoDup (acc ++ [y])%list).
      { eapply Permutation_NoDup; [apply Permutation_cons_append|]. constructor; assumption. }
      destruct (IH _ Hn') as [Hn Hi]. split; [exact Hn|].
      intro x. rewrite Hi, in_app_iff. cbn. split; [intros [[H|[<-|[]]]|H]; tauto|].
      intros [H|[<-|H]]; tauto.
Qed.

Lemma present_values_In v k : In k (present_values v) <-> In (Some k) v.
Proof.
  unfold present_values. rewrite in_flat_map. split.
  - intros [[x|] [Ho Hk]]; cbn in Hk; [destruct Hk as [<-|[]]; exact Ho | contradiction].
  - intro H. exists (Some k). split; [exact H | left; reflexivity].
Qed.

Lemma categories_spec v :
  NoDup (categories v) /\
  Sorted (fun a b => String.leb a b = true) (categories v) /\
  (forall k, In k (categories v) <-> In (Some k) v).
Proof.
  unfold categories, uniques.
  destruct (uniques_acc (present_values v) [] (NoDup_nil _)) as [Hn Hi].
  split; [|split].
  - eapply Permutation_NoDup; [apply Permutation_sym, sort_strings_perm | exact Hn].
  - apply sort_strings_sorted.
  - intro k. split.
    + intro H. apply (Permutation_in _ (sort_strings_perm _)), Hi in H.
      destruct H as [[]|H]. apply present_values_In, H.
    + intro H. apply (Permutation_in _ (Permutation_sym (sort_strings_perm _))), Hi.
      right. apply present_values_In, H.
Qed.

Lemma indicator_nth v k i :
  (i < List.length v)%nat ->
  nth i (indicator v k) nan =
  match nth i v None with Some x => if String.eqb x k then 1 else 0 | None => 0 end.
Proof.
  revert i. induction v as [|o v IH]; intros [|i] H; cbn in *; try lia; [reflexivity|].
  apply IH. lia.
Qed.

Lemma count_zero x l : ~ In x l -> List.length (filter (String.eqb x) l) = 0%nat.
Proof.
  induction l as [|y l IH]; intro H; cbn; [reflexivity|].
  destruct (String.eqb x y) eqn:E.
  - apply String.eqb_eq in E. subst. exfalso. apply H. left. reflexivity.
  - apply IH. intro Hin. apply H. right. exact Hin.
Qed.

Lemma count_one x l : NoDup l -> In x l -> List.length (filter (String.eqb x) l) = 1%nat.
Proof.
  intros Hn Hin. induction Hn as [|y l Hy Hn IH]; [destruct Hin|].
  cbn. destruct (String.eqb x y) eqn:E.
  - apply String.eqb_eq in E. subst y. cbn. rewrite count_zero by exact Hy. reflexivity.
  - destruct Hin as [-> |Hin]; [rewrite String.eqb_refl in E; discriminate | apply IH, Hin].
Qed.

Lemma count_ones_indicator x l :
  List.length (filter (fun z => z =? 1) (map (fun k => if String.eqb x k then 1 else 0) l)) =
  List.length (filter (String.eqb x) l).
Proof.
  induction l as [|k l IH]; cbn; [reflexivity|].
  destruct (String.eqb x k); cbn; [rewrite IH; reflexivity | exact IH].
Qed.

Lemma count_ones_zeros (l : list String.string) :
  List.length (filter (fun z => z =? 1) (map (fun _ => 0) l)) = 0%nat.
Proof. induction l as [|k l IH]; cbn; [reflexivity | exact IH]. Qed.

Lemma dummies_row c v i :
  (i < List.length v)%nat ->
  map (fun cs => match snd cs with Num col => nth i col nan | Obj _ => nan end) (dummies_of c v) =
  map (fun k => match nth i v None with Some x => if String.eqb x k then 1 else 0 | None => 0 end)
      (categories v).
Proof.
  intro H. unfold dummies_of. rewrite map_map. cbn [snd].
  apply map_ext. intro k. apply indicator_nth, H.
Qed.

(** [pd.get_dummies] on a text column [c]: its dummy columns, labelled
    [c ++ "_" ++ k], are one per distinct present value [k], in increasing
    string order with no repetition; in every row they hold only 0 and 1,
    with exactly one 1 when the entry is present and none when it is missing. *)
Theorem get_dummies_one_hot c v :
  NoDup (categories v) /\
  Sorted (fun a b => String.leb a b = true) (categories v) /\
  (forall k, In k (categories v) <-> In (Some k) v) /\
  (forall i, (i < List.length v)%nat ->
     let row := map (fun cs => match snd cs with Num col => nth i col nan | Obj _ => nan end)
                    (dummies_of c v) in
     Forall (fun x => x = 0 \/ x = 1) row /\
     List.length (filter (fun x => x =? 1) row) =
       match nth i v None with Some _ => 1%nat | None => 0%nat end).
Proof.
  destruct (categories_spec v) as [Hn [Hs Hi]].
  split; [exact Hn|]. split; [exact Hs|]. split; [exact Hi|].
  intros i Hlt row. unfold row. rewrite (dummies_row c v i Hlt).
  destruct (nth i v None) as [x|] eqn:Ex.
  - split.
    + apply Forall_forall. intros z Hz. apply in_map_iff in Hz as [k [<- _]].
      destruct (String.eqb x k); [right | left]; reflexivity.
    + rewrite count_ones_indicator. apply count_one; [exact Hn|].
      apply Hi. rewrite <- Ex. apply nth_In, Hlt.
  - split.
    + apply Forall_forall. intros z Hz. apply in_map_iff in Hz as [k [<- _]]. left. reflexivity.
    + apply count_ones_zeros.
Qed.

Lemma get_dummies_one_hot_witness :
  let v := [Some "b"; None; Some "a"; Some "b"]%string in
  (2 < List.length v)%nat /\
  map (fun cs => match snd cs with Num col => nth 2 col nan | Obj _ => nan end)
      (dummies_of "sex" v) = [1; 0] /\
  List.length (filter (fun x => x =? 1)
    (map (fun cs => match snd cs with Num col => nth 2 col nan | Obj _ => nan end)
         (dummies_of "sex" v))) = 1%nat.
Proof.
  cbv zeta.
  assert (Hlt : (2 < List.length [Some "b"; None; Some "a"; Some "b"]%string)%nat) by (cbn; lia).
  split; [exact Hlt | split; [reflexivity|]].
  exact (proj2 (proj2 (proj2 (proj2 (get_dummies_one_hot "sex" _))) 2%nat Hlt)).
Defined.

Lemma nan_extremum_fold better col :
  nan_extremum better col = match fold_left (ext_step better) col None with Some m => m | None => nan end.
Proof. reflexivity. Qed.

Ltac acc01_tac := first [left; reflexivity | right; left; reflexivity | right; right; reflexivity].

Lemma min_fold01 col acc :
  Forall (fun x => x = 0 \/ x = 1) col -> acc01 acc ->
  fold_left (ext_step (fun x m => x <? m)) col acc =
  if has_value 0 col || match acc with Some m => m =? 0 | None => false end then Some 0
  else if has_value 1 col || match acc with Some m => m =? 1 | None => false end then Some 1
  else None.
Proof.
  revert acc. induction col as [|x col IH]; intros acc Hf Hacc.
  - destruct Hacc as [-> |[-> | ->]]; reflexivity.
  - inversion Hf as [|? ? Hx Hf']; subst. cbn [fold_left].
    rewrite IH; [| exact Hf' | destruct Hx as [-> | ->]; destruct Hacc as [-> |[-> | ->]]; acc01_tac].
    unfold has_value; cbn [existsb].
    destruct Hx as [-> | ->]; destruct Hacc as [-> |[-> | ->]];
      destruct (existsb (fun z => z =? 0) col), (existsb (fun z => z =? 1) col); reflexivity.
Qed.

Lemma max_fold01 col acc :
  Forall (fun x => x = 0 \/ x = 1) col -> acc01 acc ->
  fold_left (ext_step (fun x m => m <? x)) col acc =
  if has_value 1 col || match acc with Some m => m =? 1 | None => false end then Some 1
  else if has_value 0 col || match acc with Some m => m =? 0 | None => false end then Some 0
  else None.
Proof.
  revert acc. induction col as [|x col IH]; intros acc Hf Hacc.
  - destruct Hacc as [-> |[-> | ->]]; reflexivity.
  - inversion Hf as [|? ? Hx Hf']; subst. cbn [fold_left].
    rewrite IH; [| exact Hf' | destruct Hx as [-> | ->]; destruct Hacc as [-> |[-> | ->]]; acc01_tac].
    unfold has_value; cbn [existsb].
    destruct Hx as [-> | ->]; destruct Hacc as [-> |[-> | ->]];
      destruct (existsb (fun z => z =? 0) col), (existsb (fun z => z =? 1) col); reflexivity.
Qed.

Lemma has_value_In k col : (k =? k) = true -> In k col -> has_value k col = true.
Proof. intros Hk Hin. apply existsb_exists. exists k. split; [exact Hin | exact Hk]. Qed.

(** MinMaxScaler on a 0/1 column (a [pd.get_dummies] indicator): the values
    come out exactly as they went in when the column holds a 0, and all 0
    when it holds only 1s. *)
Theorem minmax_indicator_column col :
  Forall (fun x => x = 0 \/ x = 1) col ->
  let '(scale, min_) := fit_column col in
  Forall (fun x => x * scale + min_ = if has_value 0 col then x else 0) col.
Proof.
  intro Hf. unfold fit_column, nanmin, nanmax. rewrite !nan_extremum_fold.
  rewrite min_fold01, max_fold01 by (exact Hf || (left; reflexivity)).
  rewrite !orb_false_r.
  destruct (has_value 0 col) eqn:E0, (has_value 1 col) eqn:E1; cbv zeta.
  - eapply Forall_impl; [|exact Hf]. intros x [-> | ->]; reflexivity.
  - eapply Forall_impl; [|exact Hf]. intros x [-> | ->]; reflexivity.
  - apply Forall_forall. intros x Hin.
    assert (Hx : x = 1).
    { apply Forall_forall with (x := x) in Hf; [|exact Hin].
      destruct Hf as [-> | ->]; [|reflexivity].
      rewrite (has_value_In 0 col eq_refl Hin) in E0. discriminate. }
    subst x. reflexivity.
  - destruct col as [|x col]; [constructor|].
    inversion Hf as [|? ? Hx _]; subst.
    destruct Hx as [-> | ->].
    + rewrite (has_value_In 0 (0 :: col) eq_refl (or_introl eq_refl)) in E0. discriminate.
    + rewrite (has_value_In 1 (1 :: col) eq_refl (or_introl eq_refl)) in E1. discriminate.
Qed.

Lemma minmax_indicator_column_witness :
  Forall (fun x => x = 0 \/ x = 1) [1; 1; 1] /\
  map (transform_row [fit_column [1; 1; 1]]) [[1]; [1]; [1]] = [[0]; [0]; [0]].
Proof.
  assert (Hf : Forall (fun x => x = 0 \/ x = 1) [1; 1; 1])
    by (repeat constructor; right; reflexivity).
  split; [exact Hf|].
  pose proof (minmax_indicator_column [1; 1; 1] Hf) as H.
  destruct (fit_column [1; 1; 1]) as [a b] eqn:E.
  cbv zeta in H. cbn in H.
  inversion H as [|? ? H1 _]. cbn. rewrite H1. reflexivity.
Defined.

Lemma numeric_columns_length df cols :
  numeric_columns df = Some cols -> List.length cols = List.length df.
Proof.
  revert cols. induction df as [|[c s] df IH]; intros cols H; cbn [numeric_columns] in H.
  - injection H as <-. reflexivity.
  - unfold obind in H. destruct (column_values s); [|discriminate].
    destruct (numeric_columns df) eqn:E; [|discriminate].
    injection H as <-. cbn. f_equal. apply IH. reflexivity.
Qed.

Lemma to_rows_width X rows :
  to_rows X = Some rows -> Forall (fun r => List.length r = List.length X) rows.
Proof.
  unfold to_rows, obind. destruct (numeric_columns X) as [cols|] eqn:E; [|discriminate].
  intro H. injection H as <-. apply Forall_forall. intros r Hr.
  apply in_map_iff in Hr as [i [<- _]]. rewrite length_map.
  apply numeric_columns_length, E.
Qed.

Lemma get_dummies_num df n :
  table_rows df n ->
  Forall (fun cs => exists col, snd cs = Num col /\ List.length col = n) (get_dummies df).
Proof.
  intro Hr. unfold table_rows in Hr. rewrite Forall_forall in Hr.
  unfold get_dummies. apply Forall_app. split; apply Forall_forall.
  - intros [c s] Hin. apply filter_In in Hin as [Hin Hb].
    destruct s as [col|v]; [|discriminate]. exists col. split; [reflexivity|].
    exact (Hr _ Hin).
  - intros cs Hin. apply in_flat_map in Hin as [[c s] [Hin Hd]].
    destruct s as [col|v]; [destruct Hd|].
    unfold dummies_of in Hd. apply in_map_iff in Hd as [k [<- _]].
    exists (indicator v k). split; [reflexivity|].
    unfold indicator. rewrite length_map. exact (Hr _ Hin).
Qed.

Lemma numeric_columns_num df n :
  Forall (fun cs => exists col, snd cs = Num col /\ List.length col = n) df ->
  exists cols, numeric_columns df = Some cols /\
    Forall (fun col => List.length col = n) cols /\ List.length cols = List.length df.
Proof.
  induction df as [|[c s] df IH]; intro H.
  - exists []. split; [reflexivity | split; [constructor | reflexivity]].
  - inversion H as [|? ? [col [Hs Hl]] Hf]; subst. cbn [snd] in Hs. subst s.
    destruct (IH Hf) as [cols [Hc [Hcs Hlen]]].
    exists (col :: cols). cbn [numeric_columns column_values obind]. rewrite Hc.
    split; [reflexivity | split; [constructor; auto | cbn; f_equal; exact Hlen]].
Qed.

(** [pd.get_dummies] then the float conversion of [MinMaxScaler.fit]: on a
    frame of [n] rows that leaves at least one dummy-frame column, it never
    raises, and gives [n] rows of one value per column of the dummy frame. *)
Theorem get_dummies_to_rows df n :
  table_rows df n -> get_dummies df <> [] ->
  exists rows, to_rows (get_dummies df) = Some rows /\
    Forall (fun r => List.length r = List.length (get_dummies df)) rows /\
    List.length rows = n.
Proof.
  intros Hr Hne.
  destruct (numeric_columns_num _ _ (get_dummies_num df n Hr)) as [cols [Hc [Hcs Hlen]]].
  unfold to_rows. rewrite Hc. cbn [obind].
  eexists. split; [reflexivity|]. split.
  - apply Forall_forall. intros r Hin. apply in_map_iff in Hin as [i [<- _]].
    rewrite length_map. exact Hlen.
  - rewrite length_map, length_seq.
    destruct cols as [|col cols].
    + destruct (get_dummies df); [contradiction | discriminate Hlen].
    + inversion Hcs; assumption.
Qed.

Lemma get_dummies_to_rows_witness :
  let df := [("age"%string, Num [40; 58]); ("gender"%string, Obj [Some "Male"%string; None])] in
  table_rows df 2 /\ get_dummies df <> [] /\
  to_rows (get_dummies df) = Some [[40; 1]; [58; 0]].
Proof.
  cbv zeta.
  assert (Hr : table_rows [("age"%string, Num [40; 58]);
                           ("gender"%string, Obj [Some "Male"%string; None])] 2)
    by (repeat constructor).
  assert (Hn : get_dummies [("age"%string, Num [40; 58]);
                            ("gender"%string, Obj [Some "Male"%string; None])] <> [])
    by discriminate.
  split; [exact Hr | split; [exact Hn|]].
  destruct (get_dummies_to_rows _ _ Hr Hn) as [rows [Hrows _]].
  rewrite Hrows. rewrite <- Hrows. reflexivity.
Defined.

Lemma scale_and_label_some names X y f :
  scale_and_label names X y = Some f ->
  getitem f "y" = Some y /\
  columns f = (if existsb (String.eqb "y") names then names else names ++ ["y"%string])%list /\
  X <> [] /\
  Forall (fun r => List.length (transform_row (fit_params X) r) = List.length names) X.
Proof.
  unfold scale_and_label, fit_transform.
  destruct (valid_input X) eqn:Hv; [|discriminate].
  unfold dataframe. destruct (forallb _ _) eqn:Hw; [|discriminate].
  intro Hs.
  assert (Hrect : rectangular (mkFrame names (map (transform_row (fit_params X)) X))).
  { intros row Hin. cbn [columns data] in *.
    apply forallb_forall with (x := row) in Hw; [apply Nat.eqb_eq, Hw | exact Hin]. }
  destruct (proj2 (setitem_getitem_spec _ _ _ Hrect) f Hs) as [Hc [Hg _]].
  split; [exact Hg|]. split; [exact Hc|]. split.
  - intros ->. cbn in Hv. discriminate Hv.
  - apply Forall_forall. intros r Hin.
    apply forallb_forall with (x := transform_row (fit_params X) r) in Hw;
      [apply Nat.eqb_eq, Hw | apply in_map, Hin].
Qed.

Lemma output_columns names X y f L :
  scale_and_label names X y = Some f -> In L (columns f) -> L = "y"%string \/ In L names.
Proof.
  intros Hs Hin. destruct (scale_and_label_some _ _ _ _ Hs) as [_ [Hc _]].
  rewrite Hc in Hin. destruct (existsb _ names); [right; exact Hin|].
  apply in_app_or in Hin as [H|[H|[]]]; [right; exact H | left; symmetry; exact H].
Qed.

Lemma dummy_name_underscore c k : In "_"%char (list_ascii_of_string (c ++ "_" ++ k)).
Proof. induction c as [|a c IH]; cbn; [left; reflexivity | right; exact IH]. Qed.

Lemma get_dummies_labels df L :
  ~ In "_"%char (list_ascii_of_string L) ->
  In L (map fst (get_dummies df)) -> In L (map fst df).
Proof.
  intros Hu Hin. unfold get_dummies in Hin. rewrite map_app in Hin.
  apply in_app_or in Hin as [Hin|Hin].
  - apply in_map_iff in Hin as [cs [<- Hin]]. apply filter_In in Hin as [Hin _].
    apply in_map, Hin.
  - apply in_map_iff in Hin as [cs [<- Hin]]. apply in_flat_map in Hin as [[c s] [_ Hd]].
    destruct s as [col|v]; [destruct Hd|].
    unfold dummies_of in Hd. apply in_map_iff in Hd as [k [<- _]].
    exfalso. apply Hu. apply dummy_name_underscore.
Qed.

Lemma drop_labels labels df X :
  drop labels df = Some X -> forall c, In c (map fst X) -> In c (map fst df) /\ ~ In c labels.
Proof.
  unfold drop. destruct (forallb _ _); [|discriminate]. intros H c Hin.
  injection H as <-. apply in_map_iff in Hin as [cs [<- Hin]].
  apply filter_In in Hin as [Hin Hb]. split; [apply in_map, Hin|].
  intro Hl. apply negb_true_iff in Hb.
  assert (E : existsb (String.eqb (fst cs)) labels = true) by (apply existsb_eqb_In, Hl).
  congruence.
Qed.

Lemma drop_missing labels df L :
  In L labels -> has_label df L = false -> drop labels df = None.
Proof.
  intros Hin Hl. unfold drop.
  destruct (forallb (has_label df) labels) eqn:E; [|reflexivity].
  rewrite forallb_forall in E. rewrite (E L Hin) in Hl. discriminate.
Qed.

Lemma dropped_not_feature labels df X0 L :
  drop labels df = Some X0 -> In L labels -> ~ In "_"%char (list_ascii_of_string L) ->
  ~ In L (map fst (get_dummies X0)).
Proof.
  intros Hd Hl Hu Hin. apply (get_dummies_labels _ _ Hu) in Hin.
  exact (proj2 (drop_labels _ _ _ Hd _ Hin) Hl).
Qed.

Lemma y_appended_last names X y f :
  scale_and_label names X y = Some f -> ~ In "y"%string names ->
  columns f = (names ++ ["y"%string])%list /\ getitem f "y" = Some y.
Proof.
  intros Hs Hn. destruct (scale_and_label_some _ _ _ _ Hs) as [Hg [Hc _]].
  split; [|exact Hg]. rewrite Hc.
  destruct (existsb (String.eqb "y") names) eqn:E; [|reflexivity].
  apply existsb_eqb_In in E. contradiction.
Qed.

Ltac inv_obind H :=
  repeat match type of H with
  | obind ?o _ = Some _ =>
      let E := fresh "E" in
      destruct o eqn:E; [cbn [obind] in H | discriminate H]
  end.

(** The label column [y] of the routines that derive it from the raw frame:
    it is the routine's 0/1 test of the label column, entered unscaled:
    [class == "Positive"] (diabetes), [y == "yes"] (bank),
    [default payment next month == 1] (defaultcc), [D == 1] (happiness),
    [Absenteeism time in hours > 0] (absenteeism). *)
Theorem derived_labels df f :
  (process_diabetes df = Some f ->
     exists s, lookup "class" df = Some s /\ getitem f "y" = Some (eq_text s "Positive")) /\
  (process_bank df = Some f ->
     exists s, lookup "y" df = Some s /\ getitem f "y" = Some (eq_text s "yes")) /\
  (process_defaultcc df = Some f ->
     exists s, lookup "default payment next month" df = Some s /\
               getitem f "y" = Some (eq_number s 1)) /\
  (process_happiness df = Some f ->
     exists s, lookup "D" df = Some s /\ getitem f "y" = Some (eq_number s 1)) /\
  (process_absenteeism df = Some f ->
     exists s y, lookup "Absenteeism time in hours" df = Some s /\ gt_zero s = Some y /\
                 getitem f "y" = Some y).
Proof.
  split; [|split; [|split; [|split]]]; intro H.
  - unfold process_diabetes in H. inv_obind H.
    eexists. split; [reflexivity|]. exact (proj1 (scale_and_label_some _ _ _ _ H)).
  - unfold process_bank in H. inv_obind H.
    eexists. split; [reflexivity|]. exact (proj1 (scale_and_label_some _ _ _ _ H)).
  - unfold process_defaultcc in H. inv_obind H.
    eexists. split; [reflexivity|]. exact (proj1 (scale_and_label_some _ _ _ _ H)).
  - unfold process_happiness in H. inv_obind H.
    eexists. split; [reflexivity|]. exact (proj1 (scale_and_label_some _ _ _ _ H)).
  - unfold process_absenteeism in H. inv_obind H.
    do 2 eexists. split; [reflexivity|]. split; [eassumption|].
    exact (proj1 (scale_and_label_some _ _ _ _ H)).
Qed.

Lemma derived_labels_witness :
  let df := [("age"%string, Num [40; 58]);
             ("gender"%string, Obj [Some "Male"; Some "Female"]%string);
             ("class"%string, Obj [Some "Positive"; Some "Negative"]%string)] in
  exists f, process_diabetes df = Some f /\ getitem f "y" = Some [1; 0].
Proof.
  cbv zeta. eexists. split; [reflexivity|].
  match goal with |- getitem ?f _ = _ =>
    assert (H : process_diabetes [("age"%string, Num [40; 58]);
             ("gender"%string, Obj [Some "Male"; Some "Female"]%string);
             ("class"%string, Obj [Some "Positive"; Some "Negative"]%string)] = Some f)
      by reflexivity end.
  destruct (proj1 (derived_labels _ _) H) as [s [Hs Hg]].
  rewrite Hg. cbn in Hs. injection Hs as <-. reflexivity.
Defined.

(** The routines that copy a numeric label: [process_abalone] needs exactly
    nine columns and takes [y] from the ninth whatever its header,
    [process_epileptic] needs an [Unnamed: 0] column and takes the column [y];
    in both the output has the feature columns, none called [y], then [y]
    last, holding the raw values unscaled. *)
Theorem copied_labels df f :
  (forall c yv, nth_error df 8 = Some (c, Num yv) -> process_abalone df = Some f ->
     List.length df = 9%nat /\
     exists feats, columns f = (feats ++ ["y"%string])%list /\ ~ In "y"%string feats /\
       getitem f "y" = Some yv) /\
  (has_label df "Unnamed: 0" = false -> process_epileptic df = None) /\
  (forall yv, lookup "y" df = Some (Num yv) -> process_epileptic df = Some f ->
     exists feats, columns f = (feats ++ ["y"%string])%list /\ ~ In "y"%string feats /\
       ~ In "Unnamed: 0"%string feats /\ getitem f "y" = Some yv).
Proof.
  split; [|split].
  - intros c0 yv0 H8 H. unfold process_abalone in H.
    destruct (set_columns df abalone_names) as [dfn|] eqn:Es; [cbn [obind] in H | discriminate H].
    destruct (drop ["y"%string] dfn) as [X0|] eqn:Ed; [cbn [obind] in H | discriminate H].
    destruct (to_rows (get_dummies X0)) as [rows|] eqn:Er; [cbn [obind] in H | discriminate H].
    destruct (lookup "y" dfn) as [ys|] eqn:Ey; [cbn [obind] in H | discriminate H].
    unfold set_columns in Es. destruct (Nat.eqb _ _) eqn:El; [|discriminate Es].
    apply Nat.eqb_eq in El. cbn in El. split; [symmetry; exact El|].
    injection Es as <-.
    do 9 (destruct df as [|[?c ?s] df]; [discriminate El|]).
    destruct df; [|discriminate El].
    cbn in Ey, H8. injection H8 as _ ->. injection Ey as <-.
    exists (map fst (get_dummies X0)).
    assert (Hn : ~ In "y"%string (map fst (get_dummies X0)))
      by (apply (dropped_not_feature _ _ _ _ Ed); [left; reflexivity | cbn; intros [Hu|[]]; discriminate Hu]).
    destruct (y_appended_last _ _ _ _ H Hn) as [Hc Hg].
    split; [exact Hc | split; [exact Hn | exact Hg]].
  - intro Hl. unfold process_epileptic.
    rewrite (drop_missing _ _ "Unnamed: 0"); [reflexivity | left; reflexivity | exact Hl].
  - intros yv Hy H. unfold process_epileptic in H.
    destruct (drop ["Unnamed: 0"%string] df) as [X1|] eqn:E1; [cbn [obind] in H | discriminate H].
    destruct (drop ["y"%string] X1) as [X|] eqn:E2; [cbn [obind] in H | discriminate H].
    destruct (to_rows X) as [rows|] eqn:Er; [cbn [obind] in H | discriminate H].
    rewrite Hy in H. cbn [obind] in H.
    exists (map fst X).
    assert (Hn : ~ In "y"%string (map fst X))
      by (intro Hin; exact (proj2 (drop_labels _ _ _ E2 _ Hin) (or_introl eq_refl))).
    destruct (y_appended_last _ _ _ _ H Hn) as [Hc Hg].
    split; [exact Hc | split; [exact Hn | split; [|exact Hg]]].
    intro Hin. apply (drop_labels _ _ _ E2) in Hin as [Hin _].
    exact (proj2 (drop_labels _ _ _ E1 _ Hin) (or_introl eq_refl)).
Qed.

Lemma copied_labels_witness :
  let df := [("0"%string, Obj [Some "M"; Some "F"]%string);
             ("1"%string, Num [0.5; 0.25]); ("2"%string, Num [0.375; 0.25]);
             ("3"%string, Num [0.125; 0.0625]); ("4"%string, Num [0.5; 0.25]);
             ("5"%string, Num [0.25; 0.125]); ("6"%string, Num [0.125; 0.0625]);
             ("7"%string, Num [0.125; 0.0625]); ("8"%string, Num [15; 7])] in
  exists f, process_abalone df = Some f /\ getitem f "y" = Some [15; 7].
Proof.
  cbv zeta. eexists. split; [reflexivity|].
  match goal with |- getitem ?f _ = _ =>
    assert (H : process_abalone
             [("0"%string, Obj [Some "M"; Some "F"]%string);
              ("1"%string, Num [0.5; 0.25]); ("2"%string, Num [0.375; 0.25]);
              ("3"%string, Num [0.125; 0.0625]); ("4"%string, Num [0.5; 0.25]);
              ("5"%string, Num [0.25; 0.125]); ("6"%string, Num [0.125; 0.0625]);
              ("7"%string, Num [0.125; 0.0625]); ("8"%string, Num [15; 7])] = Some f)
      by reflexivity end.
  assert (H8 : nth_error
             [("0"%string, Obj [Some "M"; Some "F"]%string);
              ("1"%string, Num [0.5; 0.25]); ("2"%string, Num [0.375; 0.25]);
              ("3"%string, Num [0.125; 0.0625]); ("4"%string, Num [0.5; 0.25]);
              ("5"%string, Num [0.25; 0.125]); ("6"%string, Num [0.125; 0.0625]);
              ("7"%string, Num [0.125; 0.0625]); ("8"%string, Num [15; 7])] 8 =
           Some ("8"%string, Num [15; 7])) by reflexivity.
  destruct (proj1 (copied_labels _ _) _ _ H8 H) as [_ [feats [_ [_ Hg]]]].
  exact Hg.
Defined.

Lemma clean_name_chars c :
  list_ascii_of_string (clean_name c) = map clean_char (list_ascii_of_string c).
Proof.
  unfold clean_name, lower, replace_char.
  rewrite !list_ascii_of_string_of_list_ascii, !map_map. reflexivity.
Qed.

Lemma clean_char_spec a :
  (negb (Ascii.eqb (clean_char a) " ") && negb (Ascii.eqb (clean_char a) "/") &&
   negb (is_upper (clean_char a))) = true /\
  clean_char (clean_char a) = clean_char a.
Proof. destruct a as [[] [] [] [] [] [] [] []]; split; reflexivity. Qed.

Lemma clean_name_clean c : clean_label (clean_name c) = true /\ clean_name (clean_name c) = clean_name c.
Proof.
  split.
  - unfold clean_label. rewrite clean_name_chars. apply forallb_forall.
    intros a Hin. apply in_map_iff in Hin as [b [<- _]]. apply clean_char_spec.
  - assert (Hl : list_ascii_of_string (clean_name (clean_name c)) =
                 list_ascii_of_string (clean_name c)).
    { rewrite !clean_name_chars, map_map. apply map_ext. intro a. apply clean_char_spec. }
    rewrite <- (string_of_list_ascii_of_string (clean_name (clean_name c))), Hl.
    apply string_of_list_ascii_of_string.
Qed.

Lemma list_ascii_of_string_app a b :
  list_ascii_of_string (a ++ b) = (list_ascii_of_string a ++ list_ascii_of_string b)%list.
Proof. induction a as [|x a IH]; cbn; [reflexivity | rewrite IH; reflexivity]. Qed.

Lemma is_ascii_app a b : is_ascii (a ++ b) = is_ascii a && is_ascii b.
Proof. unfold is_ascii. rewrite list_ascii_of_string_app. apply forallb_app. Qed.

Lemma clean_char_ascii a :
  Nat.ltb (nat_of_ascii a) 128 = true -> Nat.ltb (nat_of_ascii (clean_char a)) 128 = true.
Proof.
  destruct a as [[] [] [] [] [] [] [] []]; vm_compute; intro H; first [reflexivity | discriminate H].
Qed.

Lemma clean_name_ascii c : is_ascii c = true -> is_ascii (clean_name c) = true.
Proof.
  unfold is_ascii. rewrite clean_name_chars. rewrite !forallb_forall. intros H a Hin.
  apply in_map_iff in Hin as [b [<- Hb]]. apply clean_char_ascii, H, Hb.
Qed.

Lemma drop_ascii labels df X :
  ascii_table df = true -> drop labels df = Some X -> ascii_table X = true.
Proof.
  unfold drop. destruct (forallb (has_label df) labels); [|discriminate].
  intros H E. injection E as <-. unfold ascii_table in *. rewrite forallb_forall in *.
  intros cs Hin. apply filter_In in Hin as [Hin _]. apply H, Hin.
Qed.

Lemma get_dummies_ascii X L :
  ascii_table X = true -> In L (map fst (get_dummies X)) -> is_ascii L = true.
Proof.
  unfold ascii_table. rewrite forallb_forall. intros H Hin.
  unfold get_dummies in Hin. rewrite map_app in Hin.
  apply in_app_or in Hin as [Hin|Hin].
  - apply in_map_iff in Hin as [cs [<- Hin]]. apply filter_In in Hin as [Hin _].
    apply H in Hin. apply andb_prop in Hin as [Ha _]. exact Ha.
  - apply in_map_iff in Hin as [cs [<- Hin]]. apply in_flat_map in Hin as [[c s0] [Hin Hd]].
    apply H in Hin. cbn [fst snd] in Hin. apply andb_prop in Hin as [Hc Hv].
    destruct s0 as [col|v]; [destruct Hd|].
    unfold dummies_of in Hd. apply in_map_iff in Hd as [k [<- Hk]].
    apply (proj2 (proj2 (categories_spec v))) in Hk.
    rewrite forallb_forall in Hv. apply Hv in Hk.
    cbn [fst]. rewrite !is_ascii_app, Hc, Hk. reflexivity.
Qed.

(** On a frame whose labels and text values are ASCII (where [lower] is
    Python's [str.lower]), [process_absenteeism] writes column labels that
    are ASCII and clean: no space, no [/], no upper-case letter, and cleaning
    them again changes nothing; so neither [ID] nor [Absenteeism time in
    hours] is among them. *)
Theorem absenteeism_clean_columns df f :
  ascii_table df = true ->
  process_absenteeism df = Some f ->
  Forall (fun c => is_ascii c = true /\ clean_label c = true /\ clean_name c = c) (columns f) /\
  ~ In "ID"%string (columns f) /\ ~ In "Absenteeism time in hours"%string (columns f).
Proof.
  intros Ha H. unfold process_absenteeism in H. inv_obind H.
  match goal with Ed : drop _ df = Some ?X0 |- _ => pose proof (drop_ascii _ _ _ Ha Ed) as HX end.
  assert (Hf : Forall (fun c => is_ascii c = true /\ clean_label c = true /\ clean_name c = c)
                      (columns f)).
  { apply Forall_forall. intros c Hin.
    destruct (output_columns _ _ _ _ _ H Hin) as [->|Hc]; [split; [|split]; reflexivity|].
    apply in_map_iff in Hc as [c0 [<- Hc0]].
    split; [apply clean_name_ascii, (get_dummies_ascii _ _ HX Hc0)|].
    apply clean_name_clean. }
  split; [exact Hf|]. rewrite Forall_forall in Hf.
  split; intro Hin; apply Hf in Hin as [_ [Hl _]]; discriminate Hl.
Qed.

Lemma absenteeism_clean_columns_witness :
  let df := [("ID"%string, Num [11; 36]); ("Reason for absence"%string, Num [26; 0]);
             ("Work load Average/day "%string, Num [239.5; 205.75]);
             ("Absenteeism time in hours"%string, Num [4; 0])] in
  ascii_table df = true /\
  exists f, process_absenteeism df = Some f /\
    columns f = ["reason_for_absence"; "work_load_average_day_"; "y"]%string /\
    Forall (fun c => is_ascii c = true /\ clean_label c = true /\ clean_name c = c) (columns f).
Proof.
  cbv zeta.
  assert (Ha : ascii_table
             [("ID"%string, Num [11; 36]); ("Reason for absence"%string, Num [26; 0]);
              ("Work load Average/day "%string, Num [239.5; 205.75]);
              ("Absenteeism time in hours"%string, Num [4; 0])] = true)
    by (vm_compute; reflexivity).
  split; [exact Ha|].
  eexists. split; [reflexivity|]. split; [reflexivity|].
  match goal with |- Forall _ (columns ?f) =>
    assert (H : process_absenteeism
             [("ID"%string, Num [11; 36]); ("Reason for absence"%string, Num [26; 0]);
              ("Work load Average/day "%string, Num [239.5; 205.75]);
              ("Absenteeism time in hours"%string, Num [4; 0])] = Some f)
      by reflexivity end.
  exact (proj1 (absenteeism_clean_columns _ _ Ha H)).
Defined.

(** [process_happiness] labels its features with six fixed names: it succeeds
    only when [pd.get_dummies] leaves exactly six feature columns, and then
    writes those six names followed by [y]. *)
Theorem happiness_six_features df f :
  process_happiness df = Some f ->
  columns f = (happiness_names ++ ["y"%string])%list /\
  exists X0, drop ["D"%string] df = Some X0 /\ List.length (get_dummies X0) = 6%nat.
Proof.
  intro H. unfold process_happiness in H.
  destruct (lookup "D" df) as [dcol|] eqn:Ed; [cbn [obind] in H | discriminate H].
  destruct (drop ["D"%string] df) as [X0|] eqn:E0; [cbn [obind] in H | discriminate H].
  destruct (to_rows (get_dummies X0)) as [rows|] eqn:Er; [cbn [obind] in H | discriminate H].
  split.
  - apply (y_appended_last _ _ _ _ H). cbn. intuition discriminate.
  - exists X0. split; [reflexivity|].
    destruct (scale_and_label_some _ _ _ _ H) as [_ [_ [Hne Hw]]].
    pose proof (to_rows_width _ _ Er) as Hr.
    destruct rows as [|r rows]; [contradiction|].
    inversion Hw as [|? ? Hw1 _]; subst. inversion Hr as [|? ? Hr1 _]; subst.
    rewrite transform_row_length, fit_params_length in Hw1. cbn [width] in Hw1.
    rewrite Nat.min_id in Hw1. rewrite <- Hr1. exact Hw1.
Qed.

Lemma happiness_six_features_witness :
  let df := [("D"%string, Num [0; 1]);
             ("X1"%string, Num [3; 5]); ("X2"%string, Num [3; 2]); ("X3"%string, Num [3; 3]);
             ("X4"%string, Num [4; 5]); ("X5"%string, Num [2; 4]); ("X6"%string, Num [4; 3])] in
  exists f, process_happiness df = Some f /\
    exists X0, drop ["D"%string] df = Some X0 /\ List.length (get_dummies X0) = 6%nat.
Proof.
  cbv zeta. eexists. split; [reflexivity|].
  match goal with |- exists X0, drop _ ?df = _ /\ _ =>
    assert (H : exists f, process_happiness df = Some f) by (eexists; reflexivity) end.
  destruct H as [f H].
  exact (proj2 (happiness_six_features _ _ H)).
Defined.

(** The raw label column never becomes a feature: [class] is not a column of
    the diabetes output, neither [ID] nor [default payment next month] of the
    defaultcc output, and in the bank output the only [y] is the derived label,
    placed last. *)
Theorem labels_not_features df f :
  (process_diabetes df = Some f -> ~ In "class"%string (columns f)) /\
  (process_defaultcc df = Some f ->
     ~ In "ID"%string (columns f) /\ ~ In "default payment next month"%string (columns f)) /\
  (process_bank df = Some f ->
     exists feats, columns f = (feats ++ ["y"%string])%list /\ ~ In "y"%string feats).
Proof.
  split; [|split]; intro H.
  - unfold process_diabetes in H. inv_obind H. intro Hin.
    destruct (output_columns _ _ _ _ _ H Hin) as [Hy|Hin']; [discriminate Hy|].
    revert Hin'. apply (dropped_not_feature _ _ _ _ E0); [left; reflexivity|].
    cbn. intuition discriminate.
  - unfold process_defaultcc in H. inv_obind H.
    split; intro Hin;
      (destruct (output_columns _ _ _ _ _ H Hin) as [Hy|Hin']; [discriminate Hy|]);
      revert Hin'; (apply (dropped_not_feature _ _ _ _ E0);
                    [cbn; tauto | cbn; intuition discriminate]).
  - unfold process_bank in H.
    destruct (lookup "y" df) as [ycol|] eqn:Ey; [cbn [obind] in H | discriminate H].
    destruct (drop ["y"%string] df) as [X0|] eqn:E0; [cbn [obind] in H | discriminate H].
    destruct (to_rows (get_dummies X0)) as [rows|] eqn:Er; [cbn [obind] in H | discriminate H].
    exists (map fst (get_dummies X0)).
    assert (Hn : ~ In "y"%string (map fst (get_dummies X0)))
      by (apply (dropped_not_feature _ _ _ _ E0); [left; reflexivity | cbn; intuition discriminate]).
    split; [exact (proj1 (y_appended_last _ _ _ _ H Hn)) | exact Hn].
Qed.

Lemma labels_not_features_witness :
  let df := [("age"%string, Num [40; 58]);
             ("gender"%string, Obj [Some "Male"; Some "Female"]%string);
             ("class"%string, Obj [Some "Positive"; Some "Negative"]%string)] in
  exists f, process_diabetes df = Some f /\
    columns f = ["age"; "gender_Female"; "gender_Male"; "y"]%string /\
    ~ In "class"%string (columns f).
Proof.
  cbv zeta. eexists. split; [reflexivity|]. split; [reflexivity|].
  match goal with |- ~ In _ (columns ?f) =>
    assert (H : process_diabetes [("age"%string, Num [40; 58]);
             ("gender"%string, Obj [Some "Male"; Some "Female"]%string);
             ("class"%string, Obj [Some "Positive"; Some "Negative"]%string)] = Some f)
      by reflexivity end.
  exact (proj1 (labels_not_features _ _) H).
Defined.

End PandasFacts.
